(** * weverse.py: the response-to-object mapping layer

    A shallow embedding of [weverse/objects/attachment.py],
    [weverse/objects/member.py] and [weverse/objects/post.py].

    Every constructor of the package takes one decoded JSON mapping and
    reads keys from it; a required key is read with [data["k"]], an
    optional one with [data.get("k")] or behind a presence test.  Python
    exceptions are modelled with an error monad, attribute values keep the
    raw decoded value (Python performs no conversion on them). *)

From Stdlib Require Import ZArith List String Bool Lia Permutation.
Import ListNotations.
Open Scope string_scope.
Open Scope Z_scope.

(** ** Decoded JSON values *)

(** What [json.loads] hands to the constructors.  A mapping keeps the
    insertion order of its keys, as a Python [dict] does, so it is an
    association list; numbers are the integers of the wire format (ids,
    counts, sizes, epoch times). *)
#[warnings="-register-all"]
Inductive json : Type :=
| JNull
| JBool (b : bool)
| JInt (z : Z)
| JStr (s : string)
| JList (l : list json)
| JDict (kvs : list (string * json)).

Definition dict := list (string * json).

(** The exceptions the package can raise.  [KeyError] carries the key
    that was looked up, exactly as [KeyError('k').args] does. *)
Inductive exn : Type :=
| KeyError (k : string)
| TypeError
| AttributeError
| NotImplementedError.

Inductive result (A : Type) : Type :=
| Ok (a : A)
| Err (e : exn).
Arguments Ok {A} a.
Arguments Err {A} e.

Definition bind {A B} (r : result A) (k : A -> result B) : result B :=
  match r with
  | Ok a => k a
  | Err e => Err e
  end.

Notation "x <- e ;; k" := (bind e (fun x => k))
  (at level 61, e at next level, right associativity).

Definition is_ok {A} (r : result A) : bool :=
  match r with Ok _ => true | Err _ => false end.

Fixpoint mapM {A B} (f : A -> result B) (l : list A) : result (list B) :=
  match l with
  | [] => Ok []
  | x :: xs => y <- f x ;; ys <- mapM f xs ;; Ok (y :: ys)
  end.

(** ** Python operations on decoded values *)

Fixpoint lookup (k : string) (d : dict) : option json :=
  match d with
  | [] => None
  | (k', v) :: d' => if String.eqb k' k then Some v else lookup k d'
  end.

(** The mapping without key [k]. *)
Fixpoint dict_remove (k : string) (d : dict) : dict :=
  match d with
  | [] => []
  | (k', v) :: d' =>
      if String.eqb k' k then dict_remove k d' else (k', v) :: dict_remove k d'
  end.

(** [d.values()]: the values in key-insertion order. *)
Definition dict_values (d : dict) : list json := map snd d.

(** [data["k"]] with a string key. *)
Definition getitem (data : json) (k : string) : result json :=
  match data with
  | JDict d =>
      match lookup k d with
      | Some v => Ok v
      | None => Err (KeyError k)
      end
  | _ => Err TypeError
  end.

(** [data.get("k")]: only a mapping has the method. *)
Definition get (data : json) (k : string) : result json :=
  match data with
  | JDict d =>
      match lookup k d with
      | Some v => Ok v
      | None => Ok JNull
      end
  | _ => Err AttributeError
  end.

(** [data.values()]. *)
Definition values (data : json) : result (list json) :=
  match data with
  | JDict d => Ok (dict_values d)
  | _ => Err AttributeError
  end.

(** [bool(v)], the test behind [if v] and [not v]. *)
Definition truthy (v : json) : bool :=
  match v with
  | JNull => false
  | JBool b => b
  | JInt z => negb (z =? 0)
  | JStr s => negb (String.eqb s "")
  | JList l => match l with [] => false | _ => true end
  | JDict d => match d with [] => false | _ => true end
  end.

(** [a == b] on decoded values: [bool] is a subclass of [int], sequences
    compare element by element, mappings compare key by key whatever the
    order. *)
Fixpoint py_eq (a b : json) : bool :=
  match a, b with
  | JNull, JNull => true
  | JBool x, JBool y => Bool.eqb x y
  | JBool x, JInt y => Z.b2z x =? y
  | JInt x, JBool y => x =? Z.b2z y
  | JInt x, JInt y => x =? y
  | JStr x, JStr y => String.eqb x y
  | JList xs, JList ys =>
      (fix go (xs ys : list json) : bool :=
         match xs, ys with
         | [], [] => true
         | x :: xs', y :: ys' => py_eq x y && go xs' ys'
         | _, _ => false
         end) xs ys
  | JDict xs, JDict ys =>
      (List.length xs =? List.length ys)%nat &&
      forallb (fun kv => match lookup (fst kv) ys with
                         | Some w => py_eq (snd kv) w
                         | None => false
                         end) xs
  | _, _ => false
  end.

(** ["k" in data]: key test on a mapping, substring test on a string,
    membership on a list, [TypeError] on the rest. *)
Definition substring_of (k s : string) : bool :=
  match String.index 0 k s with Some _ => true | None => false end.

Definition contains (data : json) (k : string) : result bool :=
  match data with
  | JDict d => Ok (match lookup k d with Some _ => true | None => false end)
  | JStr s => Ok (substring_of k s)
  | JList l => Ok (existsb (py_eq (JStr k)) l)
  | _ => Err TypeError
  end.

(** [hash(v)].  Strings hash through a per-process seeded function and
    [None] through an interpreter constant, so both are parameters;
    integers reduce modulo the Mersenne prime [2^61 - 1] with [-1]
    replaced by [-2]; lists and mappings are unhashable. *)
Section Hash.
Variable hash_str : string -> Z.
Variable hash_none : Z.

Definition hash_int (z : Z) : Z :=
  let h := Z.sgn z * (Z.abs z mod (2 ^ 61 - 1)) in
  if h =? -1 then -2 else h.

Definition py_hash (v : json) : result Z :=
  match v with
  | JNull => Ok hash_none
  | JBool b => Ok (hash_int (Z.b2z b))
  | JInt z => Ok (hash_int z)
  | JStr s => Ok (hash_str s)
  | JList _ => Err TypeError
  | JDict _ => Err TypeError
  end.
End Hash.

(** ** attachment.py *)

Module Photo.
Record t : Type := mk {
  data : json;
  id : json;
  url : json;
  height : json;
  width : json
}.

Definition __init__ (data : json) : result t :=
  id <- getitem data "photoId" ;;
  url <- getitem data "url" ;;
  height <- getitem data "height" ;;
  width <- getitem data "width" ;;
  Ok (mk data id url height width).

Definition __str__ (self : t) : json := url self.
End Photo.

Module Video.
Record t : Type := mk {
  data : json;
  id : json;
  duration : json;
  height : json;
  width : json;
  thumbnail_url : json
}.

Definition __init__ (data : json) : result t :=
  id <- getitem data "videoId" ;;
  duration <- (u <- getitem data "uploadInfo" ;; getitem u "playTime") ;;
  height <- (u <- getitem data "uploadInfo" ;; getitem u "height") ;;
  width <- (u <- getitem data "uploadInfo" ;; getitem u "width") ;;
  thumbnail_url <- (u <- getitem data "uploadInfo" ;; getitem u "imageUrl") ;;
  Ok (mk data id duration height width thumbnail_url).
End Video.

Module Snippet.
Record t : Type := mk {
  data : json;
  id : json;
  url : json;
  title : json;
  description : json;
  type : json;
  site : json;
  domain : json;
  thumbnail_url : json
}.

Definition __init__ (data : json) : result t :=
  id <- getitem data "snippetId" ;;
  url <- getitem data "url" ;;
  title <- getitem data "title" ;;
  description <- getitem data "description" ;;
  type <- get data "type" ;;
  site <- get data "site" ;;
  domain <- getitem data "domain" ;;
  thumbnail_url <-
    (image <- get data "image" ;;
     if truthy image
     then i <- getitem data "image" ;; getitem i "url"
     else Ok JNull) ;;
  Ok (mk data id url title description type site domain thumbnail_url).

Definition __str__ (self : t) : json := title self.
End Snippet.

(** ** member.py *)

Module PartialMember.
Record t : Type := mk {
  data : json;
  id : json;
  name : json;
  image_url : json;
  profile_type : json
}.

Definition __init__ (data : json) : result t :=
  id <- getitem data "memberId" ;;
  name <- getitem data "profileName" ;;
  image_url <- get data "profileImageUrl" ;;
  profile_type <- getitem data "profileType" ;;
  Ok (mk data id name image_url profile_type).

Definition __str__ (self : t) : json := name self.
End PartialMember.

Module ArtistProfile.
Record t : Type := mk {
  official_name : json;
  official_image_url : json;
  birthday : json
}.

Definition __init__ (data : json) : result t :=
  official_name <- getitem data "officialName" ;;
  official_image_url <- getitem data "officialImageUrl" ;;
  birthday <- (b <- getitem data "birthday" ;; getitem b "date") ;;
  Ok (mk official_name official_image_url birthday).

Definition __str__ (self : t) : json := official_name self.
End ArtistProfile.

(** A specialization runs [super().__init__(data)] first; the record of a
    derived class holds the base part in [base]. *)
Module Artist.
Record t : Type := mk {
  base : PartialMember.t;
  community_id : json;
  artist_profile : ArtistProfile.t;
  join_date : json
}.

Definition __init__ (data : json) : result t :=
  base <- PartialMember.__init__ data ;;
  community_id <- getitem data "communityId" ;;
  artist_profile <-
    (p <- getitem data "artistOfficialProfile" ;; ArtistProfile.__init__ p) ;;
  join_date <- getitem data "joinedDate" ;;
  Ok (mk base community_id artist_profile join_date).
End Artist.

Module PostAuthor.
Record t : Type := mk {
  base : PartialMember.t;
  community_id : json;
  has_joined : json;
  is_official : json;
  profile_is_accessible : bool;
  is_my_profile : json;
  artist_profile : option ArtistProfile.t
}.

Definition __init__ (data : json) : result t :=
  base <- PartialMember.__init__ data ;;
  community_id <- getitem data "communityId" ;;
  has_joined <- getitem data "joined" ;;
  is_official <- getitem data "hasOfficialMark" ;;
  profile_is_accessible <-
    (s <- getitem data "profileSpaceStatus" ;; Ok (py_eq s (JStr "ACCESSIBLE"))) ;;
  is_my_profile <- getitem data "myProfile" ;;
  artist_profile <-
    (present <- contains data "artistOfficialProfile" ;;
     if (present : bool)
     then p <- getitem data "artistOfficialProfile" ;;
          a <- ArtistProfile.__init__ p ;; Ok (Some a)
     else Ok None) ;;
  Ok (mk base community_id has_joined is_official profile_is_accessible
         is_my_profile artist_profile).
End PostAuthor.

Module Member.
Record t : Type := mk {
  base : PartialMember.t;
  community_id : json;
  profile_cover_image_url : json;
  profile_comment : json;
  has_joined : json;
  has_membership : json;
  is_official : json;
  is_hidden : json;
  is_blinded : json;
  is_followed : json;
  is_my_profile : json;
  first_joined_at : json;
  follow_count : json;
  artist_profile : option ArtistProfile.t
}.

Definition __init__ (data : json) : result t :=
  base <- PartialMember.__init__ data ;;
  community_id <- getitem data "communityId" ;;
  profile_cover_image_url <- get data "profileCoverImageUrl" ;;
  profile_comment <- get data "profileComment" ;;
  has_joined <- getitem data "joined" ;;
  has_membership <- getitem data "hasMembership" ;;
  is_official <- getitem data "hasOfficialMark" ;;
  is_hidden <- getitem data "hidden" ;;
  is_blinded <- getitem data "blinded" ;;
  is_followed <- getitem data "followed" ;;
  is_my_profile <- getitem data "myProfile" ;;
  first_joined_at <- getitem data "firstJoinAt" ;;
  follow_count <-
    (present <- contains data "followCount" ;;
     if (present : bool)
     then c <- getitem data "followCount" ;; getitem c "followerCount"
     else Ok JNull) ;;
  artist_profile <-
    (present <- contains data "artistOfficialProfile" ;;
     if (present : bool)
     then p <- getitem data "artistOfficialProfile" ;;
          a <- ArtistProfile.__init__ p ;; Ok (Some a)
     else Ok None) ;;
  Ok (mk base community_id profile_cover_image_url profile_comment has_joined
         has_membership is_official is_hidden is_blinded is_followed
         is_my_profile first_joined_at follow_count artist_profile).
End Member.

(** ** post.py *)

(** [post.py] imports [PartialCommunity] from [community.py], which is not
    among the sources at hand: the class and its constructor are taken as
    parameters of everything below. *)
Class CommunityModel : Type := {
  PartialCommunity : Type;
  PartialCommunity_init : json -> result PartialCommunity
}.

Module PostLike.
Section WithCommunity.
Context {CM : CommunityModel}.

Record t : Type := mk {
  data : json;
  id : json;
  body : json;
  plain_body : json;
  url : json;
  like_count : json;
  comment_count : json;
  published_at : json;
  is_bookmarked : json;
  is_locked : json;
  is_hidden_from_artist : json;
  is_membership_only : json;
  has_product : json;
  hashtags : json;
  post_type : json;
  section_type : json;
  author : PostAuthor.t;
  community : PartialCommunity;
  like_id : json
}.

Definition __init__ (data : json) : result t :=
  id <- getitem data "postId" ;;
  body <- getitem data "body" ;;
  plain_body <- getitem data "plainBody" ;;
  url <- getitem data "shareUrl" ;;
  like_count <- getitem data "emotionCount" ;;
  comment_count <- getitem data "commentCount" ;;
  published_at <- getitem data "publishedAt" ;;
  is_bookmarked <- getitem data "bookmarked" ;;
  is_locked <- getitem data "locked" ;;
  is_hidden_from_artist <- getitem data "hideFromArtist" ;;
  is_membership_only <- getitem data "membershipOnly" ;;
  has_product <- getitem data "hasProduct" ;;
  hashtags <- getitem data "tags" ;;
  post_type <- getitem data "postType" ;;
  section_type <- getitem data "sectionType" ;;
  author <- (a <- getitem data "author" ;; PostAuthor.__init__ a) ;;
  community <- (c <- getitem data "community" ;; PartialCommunity_init c) ;;
  like_id <- get data "viewerEmotionId" ;;
  Ok (mk data id body plain_body url like_count comment_count published_at
         is_bookmarked is_locked is_hidden_from_artist is_membership_only
         has_product hashtags post_type section_type author community
         like_id).
End WithCommunity.
End PostLike.

(** [Post] defines no constructor of its own and stores nothing more; its
    three properties walk the retained payload on every access. *)
Module Post.
Section WithCommunity.
Context {CM : CommunityModel}.

Record t : Type := mk { base : PostLike.t }.

Definition __init__ (data : json) : result t :=
  base <- PostLike.__init__ data ;;
  Ok (mk base).

Definition __str__ (self : t) : json := PostLike.plain_body (base self).

Definition photos (self : t) : result (list Photo.t) :=
  bucket <- (a <- getitem (PostLike.data (base self)) "attachment" ;;
             get a "photo") ;;
  if negb (truthy bucket) then Ok []
  else
    vs <- (a <- getitem (PostLike.data (base self)) "attachment" ;;
           b <- getitem a "photo" ;; values b) ;;
    mapM Photo.__init__ vs.

Definition videos (self : t) : result (list Video.t) :=
  bucket <- (a <- getitem (PostLike.data (base self)) "attachment" ;;
             get a "video") ;;
  if negb (truthy bucket) then Ok []
  else
    vs <- (a <- getitem (PostLike.data (base self)) "attachment" ;;
           b <- getitem a "video" ;; values b) ;;
    mapM Video.__init__ vs.

Definition snippets (self : t) : result (list Snippet.t) :=
  bucket <- (a <- getitem (PostLike.data (base self)) "attachment" ;;
             get a "snippet") ;;
  if negb (truthy bucket) then Ok []
  else
    vs <- (a <- getitem (PostLike.data (base self)) "attachment" ;;
           b <- getitem a "snippet" ;; values b) ;;
    mapM Snippet.__init__ vs.
End WithCommunity.
End Post.

(** ** Classes, instances and attribute access *)

(** The entity classes of the three files. *)
Inductive class : Type :=
| CPhoto | CVideo | CSnippet
| CPartialMember | CArtist | CPostAuthor | CMember
| CPostLike | CPost.

Definition class_eqb (c d : class) : bool :=
  match c, d with
  | CPhoto, CPhoto | CVideo, CVideo | CSnippet, CSnippet
  | CPartialMember, CPartialMember | CArtist, CArtist
  | CPostAuthor, CPostAuthor | CMember, CMember
  | CPostLike, CPostLike | CPost, CPost => true
  | _, _ => false
  end.

(** The direct base class, as written in each [class] statement. *)
Definition parent (c : class) : option class :=
  match c with
  | CArtist | CPostAuthor | CMember => Some CPartialMember
  | CPost => Some CPostLike
  | _ => None
  end.

(** [issubclass(c, d)]; the hierarchy is one level deep. *)
Definition issubclass (c d : class) : bool :=
  class_eqb c d ||
  match parent c with
  | Some p => class_eqb p d
  | None => false
  end.

Section Objects.
Context {CM : CommunityModel}.

Inductive object : Type :=
| OPhoto (o : Photo.t)
| OVideo (o : Video.t)
| OSnippet (o : Snippet.t)
| OPartialMember (o : PartialMember.t)
| OArtist (o : Artist.t)
| OPostAuthor (o : PostAuthor.t)
| OMember (o : Member.t)
| OPostLike (o : PostLike.t)
| OPost (o : Post.t).

(** [type(o)], also [o.__class__]. *)
Definition class_of (o : object) : class :=
  match o with
  | OPhoto _ => CPhoto
  | OVideo _ => CVideo
  | OSnippet _ => CSnippet
  | OPartialMember _ => CPartialMember
  | OArtist _ => CArtist
  | OPostAuthor _ => CPostAuthor
  | OMember _ => CMember
  | OPostLike _ => CPostLike
  | OPost _ => CPost
  end.

Definition isinstance (o : object) (c : class) : bool :=
  issubclass (class_of o) c.

(** [K(data)] for an entity class [K]. *)
Definition construct (c : class) (data : json) : result object :=
  match c with
  | CPhoto => o <- Photo.__init__ data ;; Ok (OPhoto o)
  | CVideo => o <- Video.__init__ data ;; Ok (OVideo o)
  | CSnippet => o <- Snippet.__init__ data ;; Ok (OSnippet o)
  | CPartialMember => o <- PartialMember.__init__ data ;; Ok (OPartialMember o)
  | CArtist => o <- Artist.__init__ data ;; Ok (OArtist o)
  | CPostAuthor => o <- PostAuthor.__init__ data ;; Ok (OPostAuthor o)
  | CMember => o <- Member.__init__ data ;; Ok (OMember o)
  | CPostLike => o <- PostLike.__init__ data ;; Ok (OPostLike o)
  | CPost => o <- Post.__init__ data ;; Ok (OPost o)
  end.

(** What an attribute of an instance can hold: a decoded value
    ([None] being [JNull]) or an embedded object. *)
Inductive value : Type :=
| VJson (j : json)
| VProfile (p : ArtistProfile.t)
| VAuthor (a : PostAuthor.t)
| VCommunity (c : PartialCommunity).

Definition VOptProfile (p : option ArtistProfile.t) : value :=
  match p with
  | Some a => VProfile a
  | None => VJson JNull
  end.

(** The attributes of an instance by name, the base class's slots
    first. *)
Definition PartialMember_attrs (o : PartialMember.t) : list (string * value) :=
  [ ("data", VJson (PartialMember.data o));
    ("id", VJson (PartialMember.id o));
    ("name", VJson (PartialMember.name o));
    ("image_url", VJson (PartialMember.image_url o));
    ("profile_type", VJson (PartialMember.profile_type o)) ].

Definition PostLike_attrs (o : PostLike.t) : list (string * value) :=
  [ ("data", VJson (PostLike.data o));
    ("id", VJson (PostLike.id o));
    ("body", VJson (PostLike.body o));
    ("plain_body", VJson (PostLike.plain_body o));
    ("url", VJson (PostLike.url o));
    ("like_count", VJson (PostLike.like_count o));
    ("comment_count", VJson (PostLike.comment_count o));
    ("published_at", VJson (PostLike.published_at o));
    ("is_bookmarked", VJson (PostLike.is_bookmarked o));
    ("is_locked", VJson (PostLike.is_locked o));
    ("is_hidden_from_artist", VJson (PostLike.is_hidden_from_artist o));
    ("is_membership_only", VJson (PostLike.is_membership_only o));
    ("has_product", VJson (PostLike.has_product o));
    ("hashtags", VJson (PostLike.hashtags o));
    ("post_type", VJson (PostLike.post_type o));
    ("section_type", VJson (PostLike.section_type o));
    ("author", VAuthor (PostLike.author o));
    ("community", VCommunity (PostLike.community o));
    ("like_id", VJson (PostLike.like_id o)) ].

Definition attrs (o : object) : list (string * value) :=
  match o with
  | OPhoto o =>
      [ ("data", VJson (Photo.data o));
        ("id", VJson (Photo.id o));
        ("url", VJson (Photo.url o));
        ("height", VJson (Photo.height o));
        ("width", VJson (Photo.width o)) ]
  | OVideo o =>
      [ ("data", VJson (Video.data o));
        ("id", VJson (Video.id o));
        ("duration", VJson (Video.duration o));
        ("height", VJson (Video.height o));
        ("width", VJson (Video.width o));
        ("thumbnail_url", VJson (Video.thumbnail_url o)) ]
  | OSnippet o =>
      [ ("data", VJson (Snippet.data o));
        ("id", VJson (Snippet.id o));
        ("url", VJson (Snippet.url o));
        ("title", VJson (Snippet.title o));
        ("description", VJson (Snippet.description o));
        ("type", VJson (Snippet.type o));
        ("site", VJson (Snippet.site o));
        ("domain", VJson (Snippet.domain o));
        ("thumbnail_url", VJson (Snippet.thumbnail_url o)) ]
  | OPartialMember o => PartialMember_attrs o
  | OArtist o =>
      PartialMember_attrs (Artist.base o) ++
      [ ("community_id", VJson (Artist.community_id o));
        ("artist_profile", VProfile (Artist.artist_profile o));
        ("join_date", VJson (Artist.join_date o)) ]
  | OPostAuthor o =>
      PartialMember_attrs (PostAuthor.base o) ++
      [ ("community_id", VJson (PostAuthor.community_id o));
        ("has_joined", VJson (PostAuthor.has_joined o));
        ("is_official", VJson (PostAuthor.is_official o));
        ("profile_is_accessible", VJson (JBool (PostAuthor.profile_is_accessible o)));
        ("is_my_profile", VJson (PostAuthor.is_my_profile o));
        ("artist_profile", VOptProfile (PostAuthor.artist_profile o)) ]
  | OMember o =>
      PartialMember_attrs (Member.base o) ++
      [ ("community_id", VJson (Member.community_id o));
        ("profile_cover_image_url", VJson (Member.profile_cover_image_url o));
        ("profile_comment", VJson (Member.profile_comment o));
        ("has_joined", VJson (Member.has_joined o));
        ("has_membership", VJson (Member.has_membership o));
        ("is_official", VJson (Member.is_official o));
        ("is_hidden", VJson (Member.is_hidden o));
        ("is_blinded", VJson (Member.is_blinded o));
        ("is_followed", VJson (Member.is_followed o));
        ("is_my_profile", VJson (Member.is_my_profile o));
        ("first_joined_at", VJson (Member.first_joined_at o));
        ("follow_count", VJson (Member.follow_count o));
        ("artist_profile", VOptProfile (Member.artist_profile o)) ]
  | OPostLike o => PostLike_attrs o
  | OPost o => PostLike_attrs (Post.base o)
  end.

Fixpoint assoc {A} (k : string) (l : list (string * A)) : option A :=
  match l with
  | [] => None
  | (k', v) :: l' => if String.eqb k' k then Some v else assoc k l'
  end.

(** [o.a]; [None] stands for [AttributeError]. *)
Definition getattr (o : object) (a : string) : option value :=
  assoc a (attrs o).

(** [o.id], which every entity class sets in its constructor. *)
Definition id_of (o : object) : json :=
  match o with
  | OPhoto o => Photo.id o
  | OVideo o => Video.id o
  | OSnippet o => Snippet.id o
  | OPartialMember o => PartialMember.id o
  | OArtist o => PartialMember.id (Artist.base o)
  | OPostAuthor o => PartialMember.id (PostAuthor.base o)
  | OMember o => PartialMember.id (Member.base o)
  | OPostLike o => PostLike.id o
  | OPost o => PostLike.id (Post.base o)
  end.
End Objects.

(** ** The identity methods and the operators that call them *)

Section Methods.
Context {CM : CommunityModel}.
Variable hash_str : string -> Z.
Variable hash_none : Z.

(** The five classes that define [__eq__] and [__hash__] do so with the
    same body; [self] is an instance of the class or of one derived
    from it, and [self.__class__] is its run-time class. *)
Definition Photo__eq__ (self other : object) : result bool :=
  if isinstance other (class_of self)
  then Ok (py_eq (id_of self) (id_of other))
  else Err NotImplementedError.

Definition Video__eq__ (self other : object) : result bool :=
  if isinstance other (class_of self)
  then Ok (py_eq (id_of self) (id_of other))
  else Err NotImplementedError.

Definition Snippet__eq__ (self other : object) : result bool :=
  if isinstance other (class_of self)
  then Ok (py_eq (id_of self) (id_of other))
  else Err NotImplementedError.

Definition PartialMember__eq__ (self other : object) : result bool :=
  if isinstance other (class_of self)
  then Ok (py_eq (id_of self) (id_of other))
  else Err NotImplementedError.

Definition PostLike__eq__ (self other : object) : result bool :=
  if isinstance other (class_of self)
  then Ok (py_eq (id_of self) (id_of other))
  else Err NotImplementedError.

Definition Photo__hash__ (self : object) : result Z :=
  py_hash hash_str hash_none (id_of self).
Definition Video__hash__ (self : object) : result Z :=
  py_hash hash_str hash_none (id_of self).
Definition Snippet__hash__ (self : object) : result Z :=
  py_hash hash_str hash_none (id_of self).
Definition PartialMember__hash__ (self : object) : result Z :=
  py_hash hash_str hash_none (id_of self).
Definition PostLike__hash__ (self : object) : result Z :=
  py_hash hash_str hash_none (id_of self).

(** Method resolution: a derived class defines neither method and
    finds its base class's. *)
Definition eq_method (c : class) : object -> object -> result bool :=
  match c with
  | CPhoto => Photo__eq__
  | CVideo => Video__eq__
  | CSnippet => Snippet__eq__
  | CPartialMember | CArtist | CPostAuthor | CMember => PartialMember__eq__
  | CPostLike | CPost => PostLike__eq__
  end.

Definition hash_method (c : class) : object -> result Z :=
  match c with
  | CPhoto => Photo__hash__
  | CVideo => Video__hash__
  | CSnippet => Snippet__hash__
  | CPartialMember | CArtist | CPostAuthor | CMember => PartialMember__hash__
  | CPostLike | CPost => PostLike__hash__
  end.

(** [v == w].  The interpreter calls [type(v).__eq__(v, w)], except
    that when [type(w)] is a proper subclass of [type(v)] the reflected
    [type(w).__eq__(w, v)] is tried first (Python data model, rich
    comparison methods).  The methods above return a [bool] or raise,
    never the [NotImplemented] constant, so the first call decides. *)
Definition eq_op (v w : object) : result bool :=
  if negb (class_eqb (class_of v) (class_of w))
     && issubclass (class_of w) (class_of v)
  then eq_method (class_of w) w v
  else eq_method (class_of v) v w.

(** [hash(o)]. *)
Definition hash_op (o : object) : result Z :=
  hash_method (class_of o) o.

(** [type(o).__str__(o)] where the class or its base defines
    [__str__]; [Video] and [PostLike] leave it to [object]. *)
Definition str_method (o : object) : option json :=
  match o with
  | OPhoto o => Some (Photo.__str__ o)
  | OVideo _ => None
  | OSnippet o => Some (Snippet.__str__ o)
  | OPartialMember o => Some (PartialMember.__str__ o)
  | OArtist o => Some (PartialMember.__str__ (Artist.base o))
  | OPostAuthor o => Some (PartialMember.__str__ (PostAuthor.base o))
  | OMember o => Some (PartialMember.__str__ (Member.base o))
  | OPostLike _ => None
  | OPost o => Some (Post.__str__ o)
  end.

(** [str(o)]: the interpreter rejects a [__str__] result that is not a
    string. *)
Definition str_op (o : object) : option (result string) :=
  match str_method o with
  | Some (JStr s) => Some (Ok s)
  | Some _ => Some (Err TypeError)
  | None => None
  end.
End Methods.

(** ** The field tables of the documented data model *)

(** The keys each constructor reads with [data["k"]] at the top level,
    in the order it reads them. *)
Definition PartialMember_keys : list string :=
  ["memberId"; "profileName"; "profileType"].

Definition PostLike_keys : list string :=
  ["postId"; "body"; "plainBody"; "shareUrl"; "emotionCount"; "commentCount";
   "publishedAt"; "bookmarked"; "locked"; "hideFromArtist"; "membershipOnly";
   "hasProduct"; "tags"; "postType"; "sectionType"; "author"; "community"].

Definition required_keys (c : class) : list string :=
  match c with
  | CPhoto => ["photoId"; "url"; "height"; "width"]
  | CVideo => ["videoId"; "uploadInfo"]
  | CSnippet => ["snippetId"; "url"; "title"; "description"; "domain"]
  | CPartialMember => PartialMember_keys
  | CArtist =>
      PartialMember_keys ++ ["communityId"; "artistOfficialProfile"; "joinedDate"]
  | CPostAuthor =>
      PartialMember_keys ++
      ["communityId"; "joined"; "hasOfficialMark"; "profileSpaceStatus"; "myProfile"]
  | CMember =>
      PartialMember_keys ++
      ["communityId"; "joined"; "hasMembership"; "hasOfficialMark"; "hidden";
       "blinded"; "followed"; "myProfile"; "firstJoinAt"]
  | CPostLike | CPost => PostLike_keys
  end.

(** The first key of [ks] that [d] does not have. *)
Definition first_missing (ks : list string) (d : dict) : option string :=
  find (fun k => match lookup k d with Some _ => false | None => true end) ks.

(** The value at the end of a path of keys. *)
Fixpoint lookup_path (path : list string) (v : json) : option json :=
  match path with
  | [] => Some v
  | k :: rest =>
      match v with
      | JDict d =>
          match lookup k d with
          | Some w => lookup_path rest w
          | None => None
          end
      | _ => None
      end
  end.

(** The required attributes that hold a value of the payload as it is:
    the path of the value in the payload and the attribute's name. *)
Definition PartialMember_plain : list (list string * string) :=
  [ (["memberId"], "id"); (["profileName"], "name");
    (["profileType"], "profile_type") ].

Definition PostLike_plain : list (list string * string) :=
  [ (["postId"], "id"); (["body"], "body"); (["plainBody"], "plain_body");
    (["shareUrl"], "url"); (["emotionCount"], "like_count");
    (["commentCount"], "comment_count"); (["publishedAt"], "published_at");
    (["bookmarked"], "is_bookmarked"); (["locked"], "is_locked");
    (["hideFromArtist"], "is_hidden_from_artist");
    (["membershipOnly"], "is_membership_only"); (["hasProduct"], "has_product");
    (["tags"], "hashtags"); (["postType"], "post_type");
    (["sectionType"], "section_type") ].

Definition plain_fields (c : class) : list (list string * string) :=
  match c with
  | CPhoto =>
      [ (["photoId"], "id"); (["url"], "url"); (["height"], "height");
        (["width"], "width") ]
  | CVideo =>
      [ (["videoId"], "id"); (["uploadInfo"; "playTime"], "duration");
        (["uploadInfo"; "height"], "height"); (["uploadInfo"; "width"], "width");
        (["uploadInfo"; "imageUrl"], "thumbnail_url") ]
  | CSnippet =>
      [ (["snippetId"], "id"); (["url"], "url"); (["title"], "title");
        (["description"], "description"); (["domain"], "domain") ]
  | CPartialMember => PartialMember_plain
  | CArtist =>
      PartialMember_plain ++
      [ (["communityId"], "community_id"); (["joinedDate"], "join_date") ]
  | CPostAuthor =>
      PartialMember_plain ++
      [ (["communityId"], "community_id"); (["joined"], "has_joined");
        (["hasOfficialMark"], "is_official"); (["myProfile"], "is_my_profile") ]
  | CMember =>
      PartialMember_plain ++
      [ (["communityId"], "community_id"); (["joined"], "has_joined");
        (["hasMembership"], "has_membership");
        (["hasOfficialMark"], "is_official"); (["hidden"], "is_hidden");
        (["blinded"], "is_blinded"); (["followed"], "is_followed");
        (["myProfile"], "is_my_profile"); (["firstJoinAt"], "first_joined_at") ]
  | CPostLike | CPost => PostLike_plain
  end.

(** The optional attributes: the top-level key whose absence makes the
    attribute [None], and the attribute's name. *)
Definition optional_fields (c : class) : list (string * string) :=
  match c with
  | CPhoto | CVideo => []
  | CSnippet => [ ("type", "type"); ("site", "site"); ("image", "thumbnail_url") ]
  | CPartialMember | CArtist => [ ("profileImageUrl", "image_url") ]
  | CPostAuthor =>
      [ ("profileImageUrl", "image_url");
        ("artistOfficialProfile", "artist_profile") ]
  | CMember =>
      [ ("profileImageUrl", "image_url");
        ("profileCoverImageUrl", "profile_cover_image_url");
        ("profileComment", "profile_comment");
        ("followCount", "follow_count");
        ("artistOfficialProfile", "artist_profile") ]
  | CPostLike | CPost => [ ("viewerEmotionId", "like_id") ]
  end.

(** The embedded object a constructor builds before it has read all its
    required keys: [Artist] builds the profile before it reads
    "joinedDate", [PostLike] the author before it reads "community".
    [nested_ok] says that this object, when its key is there, builds. *)
Definition nested_ok (c : class) (d : dict) : bool :=
  match c with
  | CArtist =>
      match lookup "artistOfficialProfile" d with
      | Some v => is_ok (ArtistProfile.__init__ v)
      | None => true
      end
  | CPostLike | CPost =>
      match lookup "author" d with
      | Some v => is_ok (PostAuthor.__init__ v)
      | None => true
      end
  | _ => true
  end.

(** [null] or the empty mapping: the two falsy values a sub-object key
    can hold on the wire. *)
Definition null_or_empty (v : json) : Prop := v = JNull \/ v = JDict [].

(** What it means for the result [acc] of an accessor to follow the bucket
    [key] of the attachment section of payload [d], with [ctor] the leaf
    constructor.  With the section a mapping: an absent or falsy bucket
    gives the empty list; a bucket that is a mapping gives exactly the
    lists that pair off, in order, with the bucket's values, each element
    being the leaf built from its value.  Without the section the accessor
    raises what [data["attachment"]] raises. *)
Definition follows_bucket {A} (acc : result (list A)) (ctor : json -> result A)
    (key : string) (d : json) : Prop :=
  (forall att, getitem d "attachment" = Ok (JDict att) ->
     ((lookup key att = None \/
       exists v, lookup key att = Some v /\ truthy v = false) ->
      acc = Ok []) /\
     (forall b, lookup key att = Some (JDict b) ->
        (forall l, acc = Ok l <->
                   Forall2 (fun v x => ctor v = Ok x) (dict_values b) l) /\
        (forall l, acc = Ok l -> List.length l = List.length b))) /\
  (forall e, getitem d "attachment" = Err e -> acc = Err e).

(** The common shape of the three properties of [Post], with the bucket's
    key and the leaf constructor left open. *)
Definition bucket_items {A} (ctor : json -> result A) (key : string)
    (data : json) : result (list A) :=
  bucket <- (a <- getitem data "attachment" ;; get a key) ;;
  if negb (truthy bucket) then Ok []
  else
    vs <- (a <- getitem data "attachment" ;;
           b <- getitem a key ;; values b) ;;
    mapM ctor vs.


(** ** Sample payloads *)

(** A community model to run the constructors on concrete payloads: it
    keeps the sub-mapping as it is.  The theorems below hold for every
    community model. *)
Definition raw_community : CommunityModel :=
  {| PartialCommunity := json; PartialCommunity_init := fun data => Ok data |}.

Definition photo_payload : dict :=
  [ ("photoId", JStr "p1"); ("url", JStr "http://x/1.jpg");
    ("height", JInt 100); ("width", JInt 200) ].

Definition photo_payload2 : dict :=
  [ ("photoId", JStr "p2"); ("url", JStr "http://x/2.jpg");
    ("height", JInt 30); ("width", JInt 40) ].

Definition video_payload : dict :=
  [ ("videoId", JStr "v1");
    ("uploadInfo", JDict [ ("playTime", JInt 12); ("height", JInt 720);
                           ("width", JInt 1280);
                           ("imageUrl", JStr "http://x/v1.jpg") ]) ].

Definition snippet_payload : dict :=
  [ ("snippetId", JStr "s1"); ("url", JStr "http://y/");
    ("title", JStr "A page"); ("description", JStr "about");
    ("type", JStr "website"); ("site", JStr "y");
    ("domain", JStr "y.example");
    ("image", JDict [ ("url", JStr "http://y/t.png") ]) ].

Definition profile_payload : dict :=
  [ ("officialName", JStr "Star"); ("officialImageUrl", JStr "http://x/s.jpg");
    ("birthday", JDict [ ("date", JInt 946684800) ]) ].

Definition author_payload : dict :=
  [ ("memberId", JStr "m1"); ("profileName", JStr "Ann");
    ("profileImageUrl", JStr "http://x/a.jpg"); ("profileType", JStr "FAN");
    ("communityId", JInt 7); ("joined", JBool true);
    ("hasOfficialMark", JBool false); ("profileSpaceStatus", JStr "ACCESSIBLE");
    ("myProfile", JBool false) ].

Definition member_core : dict :=
  [ ("memberId", JStr "m1"); ("profileName", JStr "Ann");
    ("profileType", JStr "FAN"); ("communityId", JInt 7);
    ("joined", JBool true); ("hasMembership", JBool false);
    ("hasOfficialMark", JBool false); ("hidden", JBool false);
    ("blinded", JBool false); ("followed", JBool true);
    ("myProfile", JBool false); ("firstJoinAt", JInt 1600000000) ].

Definition member_payload : dict :=
  (member_core ++
   [ ("profileImageUrl", JStr "http://x/a.jpg");
     ("followCount", JDict [ ("followerCount", JInt 10) ]);
     ("artistOfficialProfile", JDict profile_payload) ])%list.

Definition artist_payload : dict :=
  [ ("memberId", JStr "m2"); ("profileName", JStr "Star");
    ("profileType", JStr "ARTIST"); ("communityId", JInt 7);
    ("artistOfficialProfile", JDict profile_payload);
    ("joinedDate", JInt 1500000000) ].

(** A post payload with every key [PostLike] reads and no ["attachment"]
    key. *)
Definition post_core : dict :=
  [ ("postId", JStr "1-100"); ("body", JStr "<b>hi</b>"); ("plainBody", JStr "hi");
    ("shareUrl", JStr "http://w/1-100"); ("emotionCount", JInt 3);
    ("commentCount", JInt 1); ("publishedAt", JInt 1700000000);
    ("bookmarked", JBool false); ("locked", JBool false);
    ("hideFromArtist", JBool false); ("membershipOnly", JBool false);
    ("hasProduct", JBool false); ("tags", JList [JStr "tag"]);
    ("postType", JStr "NORMAL"); ("sectionType", JStr "FEED");
    ("author", JDict author_payload);
    ("community", JDict [ ("communityId", JInt 7) ]) ].

Definition post_payload : dict :=
  (post_core ++
   [ ("attachment",
      JDict [ ("photo", JDict [ ("p1", JDict photo_payload);
                                ("p2", JDict photo_payload2) ]);
              ("video", JDict [ ("v1", JDict video_payload) ]);
              ("snippet", JDict []) ]) ])%list.

(** The object a constructor returns, for payloads on which it returns
    one. *)
Definition from_ok {A} (default : A) (r : result A) : A :=
  match r with
  | Ok a => a
  | Err _ => default
  end.

Definition blank_post : @Post.t raw_community :=
  Post.mk (CM := raw_community)
    (PostLike.mk (CM := raw_community)
       JNull JNull JNull JNull JNull JNull JNull JNull JNull JNull
       JNull JNull JNull JNull JNull JNull
       (PostAuthor.mk (PartialMember.mk JNull JNull JNull JNull JNull)
          JNull JNull JNull false JNull None)
       JNull JNull).

Definition sample_post : @Post.t raw_community :=
  from_ok blank_post (Post.__init__ (JDict post_payload)).

Definition bare_post : @Post.t raw_community :=
  from_ok blank_post (Post.__init__ (JDict post_core)).

Definition blank_member : PartialMember.t :=
  PartialMember.mk JNull JNull JNull JNull JNull.

Definition sample_photo : Photo.t :=
  from_ok (Photo.mk JNull JNull JNull JNull JNull)
    (Photo.__init__ (JDict photo_payload)).

(** A second fetch of the same photo: same id, another url. *)
Definition sample_photo_moved : Photo.t :=
  from_ok (Photo.mk JNull JNull JNull JNull JNull)
    (Photo.__init__
       (JDict [ ("photoId", JStr "p1"); ("url", JStr "http://cdn/1.jpg");
                ("height", JInt 100); ("width", JInt 200) ])).

Definition sample_partial_member : PartialMember.t :=
  from_ok blank_member (PartialMember.__init__ (JDict member_payload)).

Definition sample_member : Member.t :=
  from_ok (Member.mk blank_member JNull JNull JNull JNull JNull JNull JNull
             JNull JNull JNull JNull JNull None)
    (Member.__init__ (JDict member_payload)).

Definition hollow_post_payload : dict :=
  (post_core ++
   [ ("attachment",
      JDict [ ("photo", JNull); ("video", JDict []); ("snippet", JNull) ]) ])%list.

Definition hollow_post : @Post.t raw_community :=
  from_ok blank_post (Post.__init__ (JDict hollow_post_payload)).

Definition hollow_snippet_payload : dict :=
  [ ("snippetId", JStr "s1"); ("url", JStr "http://y/");
    ("title", JStr "A page"); ("description", JStr "about");
    ("domain", JStr "y.example"); ("image", JNull) ].

(** ** The remaining methods and operators *)

Section MoreMethods.
Context {CM : CommunityModel}.

(** No class defines [__ne__]: all inherit [object.__ne__], which calls
    the instance's own [__eq__] and negates what it returns. *)
Definition object__ne__ (self other : object) : result bool :=
  r <- eq_method (class_of self) self other ;; Ok (negb r).

(** [v != w], with the same order of calls as [v == w]. *)
Definition ne_op (v w : object) : result bool :=
  if negb (class_eqb (class_of v) (class_of w))
     && issubclass (class_of w) (class_of v)
  then object__ne__ w v
  else object__ne__ v w.

(** The [__repr__] methods are f-strings: the literal pieces joined with
    [format(value, "")] of each attribute, which for a decoded value is
    the interpreter's [str(value)], a parameter here. *)
Variable format : json -> string.

Definition Photo__repr__ (self : Photo.t) : string :=
  "Photo photo_id=" ++ format (Photo.id self) ++
  ", url=" ++ format (Photo.url self).

Definition Video__repr__ (self : Video.t) : string :=
  "Video video_id=" ++ format (Video.id self) ++
  ", duration=" ++ format (Video.duration self).

Definition Snippet__repr__ (self : Snippet.t) : string :=
  "Snippet snippet_id=" ++ format (Snippet.id self) ++
  " title=" ++ format (Snippet.title self).

Definition PartialMember__repr__ (self : PartialMember.t) : string :=
  "Partial Member member_id=" ++ format (PartialMember.id self) ++
  ", name=" ++ format (PartialMember.name self).

Definition Artist__repr__ (self : Artist.t) : string :=
  "Artist member_id=" ++ format (PartialMember.id (Artist.base self)) ++
  ", name=" ++ format (PartialMember.name (Artist.base self)).

Definition ArtistProfile__repr__ (self : ArtistProfile.t) : string :=
  "Artist Profile official_name=" ++ format (ArtistProfile.official_name self).

Definition PostAuthor__repr__ (self : PostAuthor.t) : string :=
  "Post Author member_id=" ++ format (PartialMember.id (PostAuthor.base self)) ++
  ", name=" ++ format (PartialMember.name (PostAuthor.base self)).

Definition Member__repr__ (self : Member.t) : string :=
  "Member member_id=" ++ format (PartialMember.id (Member.base self)) ++
  ", name=" ++ format (PartialMember.name (Member.base self)).

Definition Post__repr__ (self : Post.t) : string :=
  "Post post_id=" ++ format (PostLike.id (Post.base self)) ++
  ", body=" ++ format (PostLike.plain_body (Post.base self)).

(** [repr(o)].  [PostLike] has no [__repr__] and falls back to
    [object]'s, which prints a memory address: [None] here. *)
Definition repr_op (o : object) : option string :=
  match o with
  | OPhoto o => Some (Photo__repr__ o)
  | OVideo o => Some (Video__repr__ o)
  | OSnippet o => Some (Snippet__repr__ o)
  | OPartialMember o => Some (PartialMember__repr__ o)
  | OArtist o => Some (Artist__repr__ o)
  | OPostAuthor o => Some (PostAuthor__repr__ o)
  | OMember o => Some (Member__repr__ o)
  | OPostLike _ => None
  | OPost o => Some (Post__repr__ o)
  end.
End MoreMethods.

(** ** Shapes of payloads *)

(** The two types the classes document for an id: a string or an
    integer. *)
Definition documented_id (v : json) : bool :=
  match v with
  | JStr _ | JInt _ => true
  | _ => false
  end.

Definition is_mapping (v : json) : bool :=
  match v with
  | JDict _ => true
  | _ => false
  end.

(** [v] is a mapping that has every key of [ks]. *)
Definition has_keys (ks : list string) (v : json) : bool :=
  match v with
  | JDict d =>
      forallb (fun k => match lookup k d with Some _ => true | None => false end) ks
  | _ => false
  end.

(** The optional keys read with [data.get]. *)
Definition optional_plain (c : class) : list (string * string) :=
  match c with
  | CPhoto | CVideo => []
  | CSnippet => [ ("type", "type"); ("site", "site") ]
  | CPartialMember | CArtist | CPostAuthor => [ ("profileImageUrl", "image_url") ]
  | CMember =>
      [ ("profileImageUrl", "image_url");
        ("profileCoverImageUrl", "profile_cover_image_url");
        ("profileComment", "profile_comment") ]
  | CPostLike | CPost => [ ("viewerEmotionId", "like_id") ]
  end.

(** Every top-level key a constructor looks at. *)
Definition read_keys (c : class) : list string :=
  (required_keys c ++ map fst (optional_fields c))%list.

Definition profile_key_ok (d : dict) : bool :=
  match lookup "artistOfficialProfile" d with
  | Some v => is_ok (ArtistProfile.__init__ v)
  | None => true
  end.

(** The shape the sub-objects must have for a constructor to go through
    once the required keys are there: the sub-mappings it subscripts
    have the keys it subscripts them with, the embedded objects build. *)
Definition sub_objects_ok {CM : CommunityModel} (c : class) (d : dict) : bool :=
  match c with
  | CPhoto | CPartialMember => true
  | CVideo =>
      match lookup "uploadInfo" d with
      | Some u => has_keys ["playTime"; "height"; "width"; "imageUrl"] u
      | None => true
      end
  | CSnippet =>
      match lookup "image" d with
      | Some v => negb (truthy v) || has_keys ["url"] v
      | None => true
      end
  | CArtist | CPostAuthor => profile_key_ok d
  | CMember =>
      match lookup "followCount" d with
      | Some v => has_keys ["followerCount"] v
      | None => true
      end && profile_key_ok d
  | CPostLike | CPost =>
      match lookup "author" d with
      | Some v => is_ok (PostAuthor.__init__ v)
      | None => true
      end &&
      match lookup "community" d with
      | Some v => is_ok (PartialCommunity_init v)
      | None => true
      end
  end.

(** The two exceptions that reading a payload raises: a key that is not
    there, a value that cannot be subscripted. *)
Definition key_or_type_error (e : exn) : bool :=
  match e with
  | KeyError _ | TypeError => true
  | _ => false
  end.

(** Two outcomes of a constructor that differ at most in the payload the
    object retains. *)
Definition same_outcome {CM : CommunityModel} (r r' : result object) : Prop :=
  match r, r' with
  | Ok o, Ok o' =>
      class_of o = class_of o' /\
      forall nm, nm <> "data" -> getattr o nm = getattr o' nm
  | Err e, Err e' => e = e'
  | _, _ => False
  end.

(** ** More sample payloads *)

(** A post whose second photo entry has no "url", and one whose photo
    bucket is a JSON array. *)
Definition broken_post_payload : dict :=
  (post_core ++
   [ ("attachment",
      JDict [ ("photo", JDict [ ("p1", JDict photo_payload);
                                ("p2", JDict [ ("photoId", JStr "p2") ]);
                                ("p3", JNull) ]) ]) ])%list.

Definition broken_post : @Post.t raw_community :=
  from_ok blank_post (Post.__init__ (JDict broken_post_payload)).

Definition array_post_payload : dict :=
  (post_core ++
   [ ("attachment", JDict [ ("photo", JList [ JDict photo_payload ]) ]) ])%list.

Definition array_post : @Post.t raw_community :=
  from_ok blank_post (Post.__init__ (JDict array_post_payload)).

Definition sample_artist : Artist.t :=
  from_ok (Artist.mk blank_member JNull (ArtistProfile.mk JNull JNull JNull) JNull)
    (Artist.__init__ (JDict artist_payload)).

Definition sample_profile : ArtistProfile.t :=
  from_ok (ArtistProfile.mk JNull JNull JNull)
    (ArtistProfile.__init__ (JDict profile_payload)).

(** * Properties *)

(** ** Lemmas on the primitives *)

Example py_eq_bool_int : py_eq (JInt 1) (JBool true) = true.
Proof. reflexivity. Qed.

Example py_eq_dict_order :
  py_eq (JDict [("a", JInt 1); ("b", JNull)]) (JDict [("b", JNull); ("a", JInt 1)]) = true.
Proof. reflexivity. Qed.

Example hash_int_samples :
  hash_int (-1) = -2 /\ hash_int (2 ^ 61 - 1) = 0 /\ hash_int (- 2 ^ 61) = -2.
Proof. repeat split; reflexivity. Qed.


Lemma lookup_remove_same (k : string) (d : dict) :
  lookup k (dict_remove k d) = None.
Proof.
  induction d as [| [k' v] d IH]; simpl; auto.
  destruct (String.eqb k' k) eqn:E; simpl; auto.
  now rewrite E.
Qed.

Lemma lookup_remove_other (k k1 : string) (d : dict) :
  String.eqb k1 k = false ->
  lookup k1 (dict_remove k d) = lookup k1 d.
Proof.
  intros Hne.
  induction d as [| [k' v] d IH]; simpl; auto.
  destruct (String.eqb k' k) eqn:E; simpl.
  - apply String.eqb_eq in E; subst k'.
    rewrite String.eqb_sym, Hne. exact IH.
  - now rewrite IH.
Qed.

Lemma mapM_Forall2 {A B} (f : A -> result B) (l : list A) (ys : list B) :
  mapM f l = Ok ys <-> Forall2 (fun x y => f x = Ok y) l ys.
Proof.
  revert ys; induction l as [| x xs IH]; intros ys; simpl.
  - split.
    + intros H; inversion H; constructor.
    + intros H; inversion H; reflexivity.
  - split.
    + destruct (f x) as [y | e] eqn:Hx; simpl; [| discriminate].
      destruct (mapM f xs) as [zs | e] eqn:Hxs; simpl; [| discriminate].
      intros H; inversion H; subst.
      constructor; [assumption | now apply IH].
    + intros H; inversion H as [| ? y ? zs Hy Hrest]; subst.
      rewrite Hy; simpl.
      apply IH in Hrest. rewrite Hrest. reflexivity.
Qed.

Lemma mapM_length {A B} (f : A -> result B) (l : list A) (ys : list B) :
  mapM f l = Ok ys -> List.length ys = List.length l.
Proof.
  intros H. apply mapM_Forall2 in H.
  symmetry. eapply Forall2_length; eassumption.
Qed.

Lemma mapM_total {A B} (f : A -> result B) (l : list A) :
  forallb (fun x => is_ok (f x)) l = true -> exists ys, mapM f l = Ok ys.
Proof.
  induction l as [| x xs IH]; simpl; intros H.
  - now exists [].
  - apply andb_prop in H as [Hx Hxs].
    destruct (f x) as [y |] eqn:E; [| discriminate].
    destruct (IH Hxs) as [ys Hys]. exists (y :: ys).
    simpl. now rewrite Hys.
Qed.

Lemma py_eq_str (s u : string) : py_eq (JStr s) (JStr u) = true <-> s = u.
Proof. simpl. apply String.eqb_eq. Qed.

(** Reading a successful run of a constructor from its first read on. *)
Ltac run_binds H :=
  repeat match type of H with
         | bind ?r _ = Ok _ =>
             let E := fresh "E" in
             destruct r eqn:E; simpl in H; [| discriminate H]
         end.

(** ** Post: the attachment accessors *)

Section PostAccessors.
Context {CM : CommunityModel}.

Lemma PostLike_init_data (d : json) (o : PostLike.t) :
  PostLike.__init__ d = Ok o -> PostLike.data o = d.
Proof.
  unfold PostLike.__init__. intros H. run_binds H.
  inversion H; reflexivity.
Qed.

Lemma Post_init_data (d : json) (p : Post.t) :
  Post.__init__ d = Ok p -> PostLike.data (Post.base p) = d.
Proof.
  unfold Post.__init__. intros H.
  destruct (PostLike.__init__ d) as [o |] eqn:E; simpl in H; [| discriminate].
  inversion H; subst; simpl. now apply PostLike_init_data.
Qed.

Lemma photos_unfold (p : Post.t) :
  Post.photos p = bucket_items Photo.__init__ "photo" (PostLike.data (Post.base p)).
Proof. reflexivity. Qed.

Lemma videos_unfold (p : Post.t) :
  Post.videos p = bucket_items Video.__init__ "video" (PostLike.data (Post.base p)).
Proof. reflexivity. Qed.

Lemma snippets_unfold (p : Post.t) :
  Post.snippets p =
  bucket_items Snippet.__init__ "snippet" (PostLike.data (Post.base p)).
Proof. reflexivity. Qed.

Lemma bucket_items_follows {A} (ctor : json -> result A) (key : string)
    (d : json) :
  follows_bucket (bucket_items ctor key d) ctor key d.
Proof.
  unfold follows_bucket, bucket_items. split.
  - intros att Hatt. rewrite Hatt. simpl. split.
    + intros [Hnone | [v [Hv Hfalsy]]].
      * now rewrite Hnone.
      * rewrite Hv. simpl. now rewrite Hfalsy.
    + intros b Hb. rewrite Hb. simpl.
      destruct b as [| kv b']; simpl.
      * split.
        -- intros l; split; intros H; inversion H; auto.
        -- intros l H; inversion H; reflexivity.
      * split.
        -- intros l. apply (mapM_Forall2 ctor (dict_values (kv :: b')) l).
        -- intros l H.
           apply (mapM_length ctor (dict_values (kv :: b'))) in H.
           unfold dict_values in H. now rewrite length_map in H.
  - intros e He. rewrite He. reflexivity.
Qed.

(** Every entry of a bucket that builds gives a list. *)
Lemma bucket_items_total {A} (ctor : json -> result A) (key : string)
    (d : json) (att b : dict) :
  getitem d "attachment" = Ok (JDict att) ->
  lookup key att = Some (JDict b) ->
  forallb (fun v => is_ok (ctor v)) (dict_values b) = true ->
  exists l, bucket_items ctor key d = Ok l.
Proof.
  intros Hatt Hb Hall. unfold bucket_items. rewrite Hatt. simpl.
  rewrite Hb. simpl.
  destruct b as [| kv b']; simpl.
  - now exists [].
  - apply (mapM_total ctor (dict_values (kv :: b'))). exact Hall.
Qed.

(** C1, amended.  For a post built from payload [d], each of [photos],
    [videos] and [snippets] follows its bucket of the attachment
    section: the empty list for an absent or falsy bucket, otherwise
    one leaf per entry of the bucket in key-insertion order (so as many
    leaves as entries); when the payload has no attachment section the
    accessor raises the [KeyError] of [data["attachment"]]. *)
Theorem post_accessors_follow_buckets (d : json) (p : Post.t) :
  Post.__init__ d = Ok p ->
  follows_bucket (Post.photos p) Photo.__init__ "photo" d /\
  follows_bucket (Post.videos p) Video.__init__ "video" d /\
  follows_bucket (Post.snippets p) Snippet.__init__ "snippet" d.
Proof.
  intros H. apply Post_init_data in H.
  rewrite photos_unfold, videos_unfold, snippets_unfold, H.
  split; [| split]; apply bucket_items_follows.
Qed.
End PostAccessors.

Example sample_post_built :
  @Post.__init__ raw_community (JDict post_payload) = Ok sample_post.
Proof. reflexivity. Qed.

Example sample_post_photos :
  exists a b, Post.photos sample_post = Ok [a; b] /\
              Photo.id a = JStr "p1" /\ Photo.id b = JStr "p2".
Proof. eexists; eexists; repeat split. Qed.

Example sample_post_videos_snippets :
  (exists v, Post.videos sample_post = Ok [v]) /\ Post.snippets sample_post = Ok [].
Proof. split; [eexists |]; reflexivity. Qed.

Lemma post_accessors_follow_buckets_witness :
  follows_bucket (Post.photos sample_post) Photo.__init__ "photo" (JDict post_payload) /\
  follows_bucket (Post.videos sample_post) Video.__init__ "video" (JDict post_payload) /\
  follows_bucket (Post.snippets sample_post) Snippet.__init__ "snippet"
    (JDict post_payload).
Proof.
  apply (@post_accessors_follow_buckets raw_community (JDict post_payload) sample_post).
  reflexivity.
Defined.

(** C1 as stated fails: a payload on which [Post] builds and that has no
    ["attachment"] key makes the accessors raise, not return empty
    lists. *)
Lemma post_accessors_absent_section_counterexample :
  ~ (forall (d : dict) (p : @Post.t raw_community),
       Post.__init__ (JDict d) = Ok p ->
       lookup "attachment" d = None ->
       Post.photos p = Ok [] /\ Post.videos p = Ok [] /\ Post.snippets p = Ok []).
Proof.
  intros H.
  destruct (H post_core bare_post eq_refl eq_refl) as [Hp _].
  vm_compute in Hp. discriminate Hp.
Qed.

Example bare_post_raises :
  Post.photos bare_post = Err (KeyError "attachment") /\
  Post.videos bare_post = Err (KeyError "attachment") /\
  Post.snippets bare_post = Err (KeyError "attachment").
Proof. repeat split. Qed.

(** ** Identity: equality, hash and string conversion *)

Section Identity.
Context {CM : CommunityModel}.

Lemma issubclass_refl (c : class) : issubclass c c = true.
Proof. destruct c; reflexivity. Qed.

Lemma class_eqb_eq (c d : class) : class_eqb c d = true <-> c = d.
Proof. destruct c, d; simpl; split; intros H; try reflexivity; discriminate. Qed.

(** Whatever its class, an instance finds the same body for [__eq__]. *)
Lemma eq_method_body (c : class) (self other : object) :
  eq_method c self other =
  if isinstance other (class_of self)
  then Ok (py_eq (id_of self) (id_of other))
  else Err NotImplementedError.
Proof. destruct c; reflexivity. Qed.

(** Two different classes never pass the [isinstance] test of the call
    that [==] makes first. *)
Lemma first_call_rejects (v w : object) :
  class_eqb (class_of v) (class_of w) = false ->
  (if issubclass (class_of w) (class_of v)
   then isinstance v (class_of w)
   else isinstance w (class_of v)) = false.
Proof.
  unfold isinstance.
  destruct (class_of v), (class_of w); simpl; intros H;
    try reflexivity; discriminate H.
Qed.

(** C2.  For two entities of the same concrete class [a == b] returns
    the comparison of the two ids; for two entities of different
    concrete classes, a base class and one of its specializations
    included, [a == b] raises [NotImplementedError]. *)
Theorem eq_op_same_class_or_raises (a b : object) :
  (class_of a = class_of b ->
   eq_op a b = Ok (py_eq (id_of a) (id_of b))) /\
  (class_of a <> class_of b ->
   eq_op a b = Err NotImplementedError).
Proof.
  unfold eq_op. rewrite !eq_method_body. split.
  - intros Hc.
    assert (E : class_eqb (class_of a) (class_of b) = true)
      by now apply class_eqb_eq.
    rewrite E. simpl. unfold isinstance. rewrite <- Hc.
    now rewrite issubclass_refl.
  - intros Hc.
    assert (E : class_eqb (class_of a) (class_of b) = false).
    { destruct (class_eqb (class_of a) (class_of b)) eqn:E; auto.
      apply class_eqb_eq in E. contradiction. }
    rewrite E. simpl.
    pose proof (first_call_rejects a b E) as Hrej.
    destruct (issubclass (class_of b) (class_of a)); now rewrite Hrej.
Qed.

(** A direct call of the method is another matter: [isinstance] accepts
    an instance of a derived class, so the base class's [__eq__] called
    on a base instance with a derived one compares the ids.  The [==]
    operator never makes that call first. *)
Remark eq_method_accepts_derived (p : PartialMember.t) (m : Member.t) :
  PartialMember__eq__ (OPartialMember p) (OMember m) =
    Ok (py_eq (PartialMember.id p) (PartialMember.id (Member.base m))) /\
  PartialMember__eq__ (OMember m) (OPartialMember p) = Err NotImplementedError.
Proof. split; reflexivity. Qed.

Section WithHash.
Variable hash_str : string -> Z.
Variable hash_none : Z.

Lemma py_eq_same_hash (x y : json) :
  py_eq x y = true ->
  py_hash hash_str hash_none x = py_hash hash_str hash_none y.
Proof.
  destruct x, y; simpl; intros H; try discriminate H; try reflexivity.
  - apply Bool.eqb_prop in H. now subst.
  - apply Z.eqb_eq in H. now subst.
  - apply Z.eqb_eq in H. now subst.
  - apply Z.eqb_eq in H. now subst.
  - apply String.eqb_eq in H. now subst.
Qed.

Lemma hash_method_body (c : class) (self : object) :
  hash_method hash_str hash_none c self =
  py_hash hash_str hash_none (id_of self).
Proof. destruct c; reflexivity. Qed.

(** C6.  The hash of an entity is the hash of its id, whatever its
    other attributes; and two entities of the same class that compare
    equal have the same hash (an unhashable id raises the same
    [TypeError] on both sides). *)
Theorem hash_is_hash_of_id (a b : object) :
  hash_op hash_str hash_none a = py_hash hash_str hash_none (id_of a) /\
  (class_of a = class_of b ->
   eq_op a b = Ok true ->
   hash_op hash_str hash_none a = hash_op hash_str hash_none b).
Proof.
  unfold hash_op. rewrite !hash_method_body. split; [reflexivity |].
  intros Hc Heq.
  apply py_eq_same_hash.
  unfold eq_op in Heq. rewrite !eq_method_body in Heq.
  assert (E : class_eqb (class_of a) (class_of b) = true)
    by now apply class_eqb_eq.
  rewrite E in Heq. simpl in Heq. unfold isinstance in Heq.
  rewrite <- Hc, issubclass_refl in Heq.
  now inversion Heq.
Qed.
End WithHash.

End Identity.

Lemma eq_op_same_class_or_raises_witness :
  @eq_op raw_community (OPhoto sample_photo) (OPhoto sample_photo_moved) = Ok true /\
  @eq_op raw_community (OPartialMember sample_partial_member) (OMember sample_member)
    = Err NotImplementedError.
Proof.
  split.
  - apply (proj1 (@eq_op_same_class_or_raises raw_community
                    (OPhoto sample_photo) (OPhoto sample_photo_moved))).
    reflexivity.
  - apply (proj2 (@eq_op_same_class_or_raises raw_community
                    (OPartialMember sample_partial_member) (OMember sample_member))).
    simpl. discriminate.
Defined.

Example eq_op_both_orders_raise :
  @eq_op raw_community (OMember sample_member) (OPartialMember sample_partial_member)
    = Err NotImplementedError /\
  @eq_op raw_community (OPost sample_post) (OPostLike (Post.base sample_post))
    = Err NotImplementedError /\
  @eq_op raw_community (OPostLike (Post.base sample_post)) (OPost sample_post)
    = Err NotImplementedError.
Proof. repeat split. Qed.

Lemma hash_is_hash_of_id_witness :
  let h := fun s => Z.of_nat (String.length s) in
  @hash_op raw_community h 0 (OPhoto sample_photo) =
  @hash_op raw_community h 0 (OPhoto sample_photo_moved).
Proof.
  intros h.
  apply (proj2 (@hash_is_hash_of_id raw_community h 0
                  (OPhoto sample_photo) (OPhoto sample_photo_moved)));
    reflexivity.
Defined.


Example str_is_not_the_id :
  @str_op raw_community (OPhoto sample_photo) = Some (Ok "http://x/1.jpg") /\
  @id_of raw_community (OPhoto sample_photo) = JStr "p1" /\
  @str_op raw_community (OMember sample_member) = Some (Ok "Ann") /\
  @str_op raw_community (OPost sample_post) = Some (Ok "hi").
Proof. repeat split. Qed.

(** ** Construction: what the attributes hold *)

Lemma getitem_inv (d : json) (k : string) (v : json) :
  getitem d k = Ok v -> exists kvs, d = JDict kvs /\ lookup k kvs = Some v.
Proof.
  destruct d; simpl; try discriminate.
  destruct (lookup k kvs) eqn:E; intros H; inversion H; subst; eauto.
Qed.

Lemma getitem_path1 (d : json) (k : string) (v : json) :
  getitem d k = Ok v -> lookup_path [k] d = Some v.
Proof.
  intros H. apply getitem_inv in H as [kvs [-> Hk]]. simpl. now rewrite Hk.
Qed.

Lemma getitem_path2 (d : json) (k1 k2 : string) (v : json) :
  (u <- getitem d k1 ;; getitem u k2) = Ok v ->
  lookup_path [k1; k2] d = Some v.
Proof.
  intros H. destruct (getitem d k1) as [u |] eqn:E; simpl in H; [| discriminate].
  apply getitem_inv in E as [kvs [-> Hk]].
  apply getitem_inv in H as [kvs' [-> Hk']].
  simpl. rewrite Hk. now rewrite Hk'.
Qed.

Lemma py_eq_str_r (v : json) (s : string) :
  py_eq v (JStr s) = true <-> v = JStr s.
Proof.
  destruct v; simpl; split; intros H; try discriminate H.
  - apply String.eqb_eq in H. now subst.
  - inversion H. apply String.eqb_refl.
Qed.

Ltac open_init E :=
  unfold Photo.__init__, Video.__init__, Snippet.__init__,
    PartialMember.__init__, Artist.__init__, PostAuthor.__init__,
    Member.__init__, PostLike.__init__, Post.__init__ in E;
  run_binds E; inversion E; subst; clear E.

Ltac open_inits :=
  repeat match goal with
         | E : Photo.__init__ _ = Ok _ |- _ => open_init E
         | E : Video.__init__ _ = Ok _ |- _ => open_init E
         | E : Snippet.__init__ _ = Ok _ |- _ => open_init E
         | E : PartialMember.__init__ _ = Ok _ |- _ => open_init E
         | E : Artist.__init__ _ = Ok _ |- _ => open_init E
         | E : PostAuthor.__init__ _ = Ok _ |- _ => open_init E
         | E : Member.__init__ _ = Ok _ |- _ => open_init E
         | E : PostLike.__init__ _ = Ok _ |- _ => open_init E
         | E : Post.__init__ _ = Ok _ |- _ => open_init E
         end.

Ltac raw_value :=
  eexists; split;
  [ first [ apply getitem_path1; eassumption
          | apply getitem_path2; eassumption ]
  | reflexivity ].

Section Construction.
Context {CM : CommunityModel}.

(** C7, amended.  After a successful construction every required
    attribute that is read straight from the payload holds exactly the
    value found there; and the photo payload of the scenario builds the
    photo with id "p1", url "http://x/1.jpg", height 100 and width
    200.  (The attributes left out are [profile_is_accessible], a
    comparison, and the embedded objects.) *)
Theorem plain_fields_hold_raw_values :
  (forall (c : class) (d : json) (o : object) (path : list string) (a : string),
      construct c d = Ok o ->
      In (path, a) (plain_fields c) ->
      exists v, lookup_path path d = Some v /\ getattr o a = Some (VJson v)) /\
  construct CPhoto (JDict photo_payload) =
    Ok (OPhoto (Photo.mk (JDict photo_payload) (JStr "p1")
                  (JStr "http://x/1.jpg") (JInt 100) (JInt 200))).
Proof.
  split; [| reflexivity].
  intros c d o path a H HIn.
  destruct c; simpl in H; run_binds H; inversion H; subst; clear H;
    open_inits; simpl in HIn;
    repeat (destruct HIn as [HIn | HIn];
            [inversion HIn; subst; clear HIn; raw_value |]);
    contradiction.
Qed.

(** C8.  For a post author built from payload [d]:
    [profile_is_accessible] is true exactly when
    [d["profileSpaceStatus"]] is the string "ACCESSIBLE", and
    [has_joined], [is_official] and [is_my_profile] are the values of
    "joined", "hasOfficialMark" and "myProfile" as they are. *)
Theorem post_author_flags (d : json) (a : PostAuthor.t) :
  PostAuthor.__init__ d = Ok a ->
  (PostAuthor.profile_is_accessible a = true <->
   getitem d "profileSpaceStatus" = Ok (JStr "ACCESSIBLE")) /\
  getitem d "joined" = Ok (PostAuthor.has_joined a) /\
  getitem d "hasOfficialMark" = Ok (PostAuthor.is_official a) /\
  getitem d "myProfile" = Ok (PostAuthor.is_my_profile a).
Proof.
  intros H. unfold PostAuthor.__init__ in H. run_binds H.
  inversion H; subst; clear H. simpl.
  split; [| split; [| split]]; try reflexivity.
  destruct (getitem d "profileSpaceStatus") as [s |] eqn:Es;
    simpl in *; [| discriminate].
  match goal with
  | E : Ok _ = Ok _ |- _ => inversion E; subst; clear E
  end.
  rewrite py_eq_str_r. split; intros Hs.
  - now subst.
  - now inversion Hs.
Qed.

(** C5.  A payload on which [Member] builds is one on which
    [PartialMember] builds, with the same id, name, image url and
    profile type; the member's attributes are those of the partial
    member followed by attributes of other names. *)
Theorem member_extends_partial_member (d : json) (m : Member.t) :
  Member.__init__ d = Ok m ->
  exists p : PartialMember.t,
    PartialMember.__init__ d = Ok p /\
    (forall a, In a ["id"; "name"; "image_url"; "profile_type"] ->
               getattr (OMember m) a = getattr (OPartialMember p) a) /\
    (exists extra,
        attrs (OMember m) = (attrs (OPartialMember p) ++ extra)%list /\
        forall a, In a (map fst extra) ->
                  ~ In a (map fst (attrs (OPartialMember p)))).
Proof.
  intros H. unfold Member.__init__ in H.
  destruct (PartialMember.__init__ d) as [p |] eqn:Ep; simpl in H;
    [| discriminate].
  run_binds H. inversion H; subst; clear H.
  exists p. split; [reflexivity |]. split.
  - intros nm Ha. simpl in Ha.
    repeat (destruct Ha as [Ha | Ha]; [subst; reflexivity |]).
    contradiction.
  - eexists. split; [reflexivity |].
    intros nm Ha Hb. simpl in Ha, Hb.
    repeat (destruct Ha as [Ha | Ha];
            [subst nm;
             repeat (destruct Hb as [Hb | Hb]; [discriminate Hb |]);
             contradiction |]).
    contradiction.
Qed.
End Construction.

(** ** Construction: optional keys *)

Lemma getitem_remove_other (k k1 : string) (d : dict) :
  String.eqb k1 k = false ->
  getitem (JDict (dict_remove k d)) k1 = getitem (JDict d) k1.
Proof. intros H. unfold getitem. now rewrite lookup_remove_other. Qed.

Lemma get_remove_other (k k1 : string) (d : dict) :
  String.eqb k1 k = false ->
  get (JDict (dict_remove k d)) k1 = get (JDict d) k1.
Proof. intros H. unfold get. now rewrite lookup_remove_other. Qed.

Lemma contains_remove_other (k k1 : string) (d : dict) :
  String.eqb k1 k = false ->
  contains (JDict (dict_remove k d)) k1 = contains (JDict d) k1.
Proof. intros H. unfold contains. now rewrite lookup_remove_other. Qed.

Lemma get_remove_same (k : string) (d : dict) :
  get (JDict (dict_remove k d)) k = Ok JNull.
Proof. unfold get. now rewrite lookup_remove_same. Qed.

Lemma contains_remove_same (k : string) (d : dict) :
  contains (JDict (dict_remove k d)) k = Ok false.
Proof. unfold contains. now rewrite lookup_remove_same. Qed.

Arguments getitem : simpl never.
Arguments get : simpl never.
Arguments contains : simpl never.

(** Running a constructor one primitive read at a time. *)
Ltac unfold_inits :=
  unfold construct in *;
  unfold Post.__init__ in *;
  unfold Photo.__init__, Video.__init__, Snippet.__init__, Artist.__init__,
    PostAuthor.__init__, Member.__init__ in *;
  unfold PartialMember.__init__ in *;
  unfold PostLike.__init__ in *.

Ltac head_read t :=
  lazymatch t with
  | bind ?r _ => head_read r
  | (if ?b then _ else _) => head_read b
  | _ => t
  end.

Ltac read_step H :=
  lazymatch type of H with
  | Ok _ = Ok _ => fail
  | ?lhs = Ok _ =>
      let r := head_read lhs in
      first [ is_var r; destruct r | destruct r eqn:? ]
  end.

Ltac read_all H :=
  repeat (read_step H; cbn in H; try discriminate H).

Ltac replay_step :=
  first
    [ rewrite getitem_remove_other by reflexivity
    | rewrite get_remove_other by reflexivity
    | rewrite contains_remove_other by reflexivity
    | rewrite get_remove_same
    | rewrite contains_remove_same
    | match goal with
      | E : getitem ?x ?k = _ |- context [getitem ?x ?k] => rewrite E
      | E : get ?x ?k = _ |- context [get ?x ?k] => rewrite E
      | E : contains ?x ?k = _ |- context [contains ?x ?k] => rewrite E
      | E : ArtistProfile.__init__ ?x = _ |- context [ArtistProfile.__init__ ?x] =>
          rewrite E
      | E : PostAuthor.__init__ ?x = _ |- context [PostAuthor.__init__ ?x] =>
          rewrite E
      | E : PartialCommunity_init ?x = _ |- context [PartialCommunity_init ?x] =>
          rewrite E
      | E : truthy ?x = _ |- context [truthy ?x] => rewrite E
      end ].

Ltac replay := repeat (replay_step; cbn).

(** Two attribute tables that differ only at the names [a] and "data"
    give the same value at any other name. *)
Lemma assoc_same_except {A} (a nm : string) (l l' : list (string * A)) :
  nm <> a -> nm <> "data" ->
  Forall2 (fun x y => fst x = fst y /\
                      (fst x = a \/ fst x = "data" \/ snd x = snd y)) l l' ->
  assoc nm l = assoc nm l'.
Proof.
  intros Hna Hnd HF.
  induction HF as [| [k v] [k' v'] l l' [Hk Hv] _ IH]; simpl in *; auto.
  subst k'.
  destruct (String.eqb k nm) eqn:E; [| exact IH].
  apply String.eqb_eq in E. subst k.
  destruct Hv as [Hv | [Hv | Hv]]; congruence.
Qed.

Ltac same_tables :=
  repeat (constructor;
          [ split;
            [ reflexivity
            | first [ left; reflexivity
                    | right; left; reflexivity
                    | right; right; reflexivity ] ]
          | ]);
  constructor.

Section OptionalKeys.
Context {CM : CommunityModel}.

(** C4, amended.  If an entity builds from a mapping, it also builds
    from the mapping without the top-level key of one of its optional
    attributes (the key that holds the value, or the key of the
    sub-object that encloses it); that attribute is then [None], and
    every other attribute but the retained payload is unchanged. *)
Theorem optional_key_absent_is_none (c : class) (k a : string) (d : dict)
    (o : object) :
  In (k, a) (optional_fields c) ->
  construct c (JDict d) = Ok o ->
  exists o',
    construct c (JDict (dict_remove k d)) = Ok o' /\
    getattr o' a = Some (VJson JNull) /\
    (forall nm, nm <> a -> nm <> "data" -> getattr o' nm = getattr o nm).
Proof.
  intros HIn H.
  destruct c; simpl in HIn;
    repeat (destruct HIn as [HIn | HIn]; [inversion HIn; subst k a; clear HIn |]);
    try contradiction;
    unfold_inits; read_all H; injection H as Ho; subst o;
    (eexists; split; [replay; reflexivity |]);
    (split; [reflexivity |]);
    intros nm Hna Hnd; unfold getattr;
    apply (assoc_same_except _ _ _ _ Hna Hnd); simpl; same_tables.
Qed.
End OptionalKeys.

Lemma optional_key_absent_is_none_witness :
  exists o',
    @construct raw_community CMember (JDict (dict_remove "followCount" member_payload))
      = Ok o' /\
    getattr o' "follow_count" = Some (VJson JNull) /\
    (forall nm, nm <> "follow_count" -> nm <> "data" ->
                getattr o' nm = getattr (OMember sample_member) nm).
Proof.
  apply (@optional_key_absent_is_none raw_community CMember "followCount"
           "follow_count" member_payload (OMember sample_member)).
  - simpl. right; right; right; left. reflexivity.
  - reflexivity.
Defined.

(** C4 as stated fails where the optional value sits inside a sub-object:
    with the sub-object there and the value left out of it, construction
    raises.  A member whose "followCount" mapping has no "followerCount"
    is one such payload. *)
Lemma optional_nested_field_counterexample :
  is_ok (@construct raw_community CMember
           (JDict (member_core ++
                   [("followCount", JDict [("followerCount", JInt 10)])])%list))
    = true /\
  @construct raw_community CMember
    (JDict (member_core ++ [("followCount", JDict [])])%list)
    = Err (KeyError "followerCount").
Proof. split; reflexivity. Qed.

Example snippet_image_without_url :
  Snippet.__init__
    (JDict (dict_remove "image" snippet_payload ++
            [("image", JDict [("width", JInt 1)])])%list)
    = Err (KeyError "url").
Proof. reflexivity. Qed.

Example member_without_follow_count :
  exists m, Member.__init__ (JDict member_core) = Ok m /\
            Member.follow_count m = JNull /\
            Member.artist_profile m = None /\
            PartialMember.image_url (Member.base m) = JNull /\
            Member.first_joined_at m = JInt 1600000000.
Proof. eexists; repeat split. Qed.

(** ** Construction: required keys *)

Lemma first_missing_exists (ks : list string) (d : dict) (k : string) :
  In k ks -> lookup k d = None -> exists k0, first_missing ks d = Some k0.
Proof.
  unfold first_missing. induction ks as [| k1 ks IH]; simpl; intros HIn Hk.
  - contradiction.
  - destruct (lookup k1 d) eqn:E.
    + destruct HIn as [-> | HIn]; [congruence | now apply IH].
    + eauto.
Qed.

Ltac miss_step H :=
  match type of H with
  | context [lookup ?k ?d] => destruct (lookup k d) eqn:?; cbn in H |- *
  end.

Lemma get_dict_never_raises (d : dict) (k : string) (e : exn) :
  get (JDict d) k = Err e -> False.
Proof. unfold get. destruct (lookup k d); discriminate. Qed.

Ltac settle :=
  repeat match goal with
         | |- context [get (JDict ?d) ?k] =>
             let E := fresh "E" in
             destruct (get (JDict d) k) eqn:E; cbn;
             [| exfalso; exact (get_dict_never_raises _ _ _ E)]
         | |- context [ArtistProfile.__init__ ?x] =>
             destruct (ArtistProfile.__init__ x) eqn:?; cbn
         | |- context [PostAuthor.__init__ ?x] =>
             destruct (PostAuthor.__init__ x) eqn:?; cbn
         end;
  eexists;
  (split;
   [ reflexivity
   | intros Hn; cbn in Hn;
     first [reflexivity | discriminate Hn | congruence] ]).

Section RequiredKeys.
Context {CM : CommunityModel}.

Lemma construct_first_missing (c : class) (d : dict) (k0 : string) :
  first_missing (required_keys c) d = Some k0 ->
  exists e, construct c (JDict d) = Err e /\
            (nested_ok c d = true -> e = KeyError k0).
Proof.
  intros H. unfold first_missing in H.
  destruct c; unfold_inits; unfold nested_ok;
    unfold getitem; cbn in H |- *;
    repeat (miss_step H;
            try (injection H as <-; settle);
            try discriminate H).
Qed.

Lemma video_nested_missing (d u : dict) (i : json) (k : string) :
  lookup "videoId" d = Some i ->
  lookup "uploadInfo" d = Some (JDict u) ->
  first_missing ["playTime"; "height"; "width"; "imageUrl"] u = Some k ->
  construct CVideo (JDict d) = Err (KeyError k).
Proof.
  intros Hi Hu H. unfold first_missing in H.
  unfold_inits; unfold getitem; rewrite Hi, Hu; cbn in H |- *.
  repeat (miss_step H;
          try (injection H as <-; reflexivity);
          try discriminate H).
Qed.

(** C3, amended.  Building an entity from a mapping that lacks one of
    the required keys of its class fails: the constructor returns no
    object.  When the key is the first required key that is missing,
    and the embedded object read before it (if any) builds, the error
    is the [KeyError] of that key; it carries the key and nothing about
    the class.  A video whose "uploadInfo" mapping lacks one of its
    four keys fails with the [KeyError] of the first one missing. *)
Theorem missing_required_key_fails (c : class) (d : dict) (k : string) :
  In k (required_keys c) ->
  lookup k d = None ->
  (exists e, construct c (JDict d) = Err e) /\
  (first_missing (required_keys c) d = Some k ->
   nested_ok c d = true ->
   construct c (JDict d) = Err (KeyError k)) /\
  (c = CVideo ->
   forall kvs u i k',
     lookup "videoId" kvs = Some i ->
     lookup "uploadInfo" kvs = Some (JDict u) ->
     first_missing ["playTime"; "height"; "width"; "imageUrl"] u = Some k' ->
     construct c (JDict kvs) = Err (KeyError k')).
Proof.
  intros HIn Hk. split; [| split].
  - destruct (first_missing_exists _ _ _ HIn Hk) as [k0 Hk0].
    destruct (construct_first_missing c d k0 Hk0) as [e [He _]].
    now exists e.
  - intros Hfirst Hnested.
    destruct (construct_first_missing c d k Hfirst) as [e [He Hname]].
    rewrite He. f_equal. now apply Hname.
  - intros -> kvs u i k'. apply video_nested_missing.
Qed.
End RequiredKeys.

Lemma missing_required_key_fails_witness :
  @construct raw_community CPhoto (JDict [("photoId", JStr "p1")])
    = Err (KeyError "url").
Proof.
  apply (proj1 (proj2 (@missing_required_key_fails raw_community CPhoto
                         [("photoId", JStr "p1")] "url"
                         (or_intror (or_introl eq_refl)) eq_refl)));
    reflexivity.
Defined.

(** C3 as stated fails: the error of a missing key does not tell the
    class.  [PartialMember] and [Member] raise the same error on the same
    mapping, so no reading of the error gives back the class. *)
Lemma missing_key_error_has_no_class_counterexample :
  ~ exists class_of_error : exn -> class,
      forall (c : class) (d : dict) (k : string),
        In k (required_keys c) ->
        lookup k d = None ->
        exists e, @construct raw_community c (JDict d) = Err e /\
                  class_of_error e = c.
Proof.
  intros [f Hf].
  destruct (Hf CPartialMember [] "memberId" (or_introl eq_refl) eq_refl)
    as [e1 [H1 F1]].
  destruct (Hf CMember [] "memberId" (or_introl eq_refl) eq_refl)
    as [e2 [H2 F2]].
  vm_compute in H1, H2.
  injection H1 as <-. injection H2 as <-.
  rewrite F1 in F2. discriminate F2.
Qed.

Example missing_key_same_error :
  @construct raw_community CPhoto (JDict [("photoId", JStr "p1")])
    = Err (KeyError "url") /\
  @construct raw_community CSnippet (JDict [("snippetId", JStr "s1")])
    = Err (KeyError "url") /\
  @construct raw_community CPost (JDict (dict_remove "community" post_core))
    = Err (KeyError "community") /\
  @construct raw_community CPost (JDict (dict_remove "author" post_core))
    = Err (KeyError "author").
Proof. repeat split. Qed.

(** ** Presence tests on sub-objects *)

Lemma null_or_empty_falsy (v : json) : null_or_empty v -> truthy v = false.
Proof. intros [-> | ->]; reflexivity. Qed.

Section Truthiness.
Context {CM : CommunityModel}.

Lemma falsy_bucket_gives_nothing {A} (ctor : json -> result A) (key : string)
    (d : json) (att : dict) (v : json) :
  getitem d "attachment" = Ok (JDict att) ->
  lookup key att = Some v ->
  truthy v = false ->
  bucket_items ctor key d = Ok [].
Proof.
  intros Hatt Hv Hfalsy.
  destruct (bucket_items_follows ctor key d) as [Hsection _].
  destruct (Hsection att Hatt) as [Hempty _].
  apply Hempty. right. now exists v.
Qed.

Lemma snippet_falsy_image (d : dict) (v : json) (s : Snippet.t) :
  lookup "image" d = Some v ->
  truthy v = false ->
  Snippet.__init__ (JDict d) = Ok s ->
  Snippet.thumbnail_url s = JNull.
Proof.
  intros Hv Hfalsy H. unfold Snippet.__init__ in H.
  assert (Hget : get (JDict d) "image" = Ok v)
    by (unfold get; now rewrite Hv).
  rewrite Hget in H. cbn in H. rewrite Hfalsy in H. cbn in H.
  read_all H. now injection H as <-.
Qed.

Lemma snippet_falsy_image_builds (d : dict) (v : json) :
  lookup "image" d = Some v ->
  truthy v = false ->
  first_missing (required_keys CSnippet) d = None ->
  exists s, Snippet.__init__ (JDict d) = Ok s.
Proof.
  intros Hv Hfalsy H. unfold first_missing in H.
  unfold Snippet.__init__, getitem, get. rewrite Hv. cbn in H |- *.
  repeat (miss_step H; try discriminate H).
  rewrite Hfalsy. cbn.
  destruct (lookup "type" d), (lookup "site" d); cbn; eauto.
Qed.

(** C9, amended.  The presence tests on the buckets of a post and on the
    "image" of a snippet are truthiness tests.  A bucket of the
    attachment section that holds [null] or an empty mapping reads as an
    absent one: the accessor returns the empty list.  A snippet payload
    whose "image" holds [null] or an empty mapping gives
    [thumbnail_url = None], and builds whenever its required keys are
    there. *)
Theorem falsy_subobject_reads_as_absent :
  (forall (d : json) (p : Post.t) (att : dict) (v : json),
      Post.__init__ d = Ok p ->
      getitem d "attachment" = Ok (JDict att) ->
      null_or_empty v ->
      (lookup "photo" att = Some v -> Post.photos p = Ok []) /\
      (lookup "video" att = Some v -> Post.videos p = Ok []) /\
      (lookup "snippet" att = Some v -> Post.snippets p = Ok [])) /\
  (forall (d : dict) (v : json),
      lookup "image" d = Some v ->
      null_or_empty v ->
      (forall s, Snippet.__init__ (JDict d) = Ok s ->
                 Snippet.thumbnail_url s = JNull) /\
      (first_missing (required_keys CSnippet) d = None ->
       exists s, Snippet.__init__ (JDict d) = Ok s)).
Proof.
  split.
  - intros d p att v Hp Hatt Hv.
    apply Post_init_data in Hp. apply null_or_empty_falsy in Hv.
    rewrite photos_unfold, videos_unfold, snippets_unfold, Hp.
    split; [| split]; intros Hk;
      eapply falsy_bucket_gives_nothing; eassumption.
  - intros d v Hk Hv. apply null_or_empty_falsy in Hv. split.
    + intros s. now apply snippet_falsy_image with (v := v).
    + now apply snippet_falsy_image_builds with (v := v).
Qed.
End Truthiness.

Lemma falsy_subobject_reads_as_absent_witness :
  Post.photos hollow_post = Ok [] /\
  (exists s, Snippet.__init__ (JDict hollow_snippet_payload) = Ok s).
Proof.
  pose proof (@falsy_subobject_reads_as_absent raw_community) as [Hpost Hsnip].
  split.
  - apply (proj1 (Hpost (JDict hollow_post_payload) hollow_post
                    [ ("photo", JNull); ("video", JDict []); ("snippet", JNull) ]
                    JNull eq_refl eq_refl (or_introl eq_refl))).
    reflexivity.
  - apply (proj2 (Hsnip hollow_snippet_payload JNull eq_refl (or_introl eq_refl))).
    reflexivity.
Defined.

Example hollow_post_accessors :
  Post.photos hollow_post = Ok [] /\ Post.videos hollow_post = Ok [] /\
  Post.snippets hollow_post = Ok [].
Proof. repeat split. Qed.

Example hollow_snippet_thumbnail :
  exists s, Snippet.__init__ (JDict hollow_snippet_payload) = Ok s /\
            Snippet.thumbnail_url s = JNull.
Proof. eexists; split; reflexivity. Qed.

(** C9 as stated fails: not every presence test on an optional
    sub-object is a truthiness test.  [Member] asks for the key with
    ["followCount" in data], and [Member] and [PostAuthor] do the same
    for "artistOfficialProfile": a key that holds [null] is read through
    and construction raises, where the payload without the key builds. *)
Lemma presence_test_by_key_counterexample :
  ~ (forall (d : dict) (v : json),
       lookup "followCount" d = Some v ->
       null_or_empty v ->
       is_ok (Member.__init__ (JDict (dict_remove "followCount" d))) = true ->
       exists m, Member.__init__ (JDict d) = Ok m /\
                 Member.follow_count m = JNull).
Proof.
  intros H.
  destruct (H (member_core ++ [("followCount", JNull)])%list JNull
              eq_refl (or_introl eq_refl) eq_refl) as [m [Hm _]].
  vm_compute in Hm. discriminate Hm.
Qed.

Example profile_key_null :
  PostAuthor.__init__ (JDict (author_payload ++ [("artistOfficialProfile", JNull)])%list)
    = Err TypeError /\
  Member.__init__ (JDict (member_core ++ [("artistOfficialProfile", JNull)])%list)
    = Err TypeError /\
  Member.__init__ (JDict (member_core ++ [("followCount", JDict [])])%list)
    = Err (KeyError "followerCount").
Proof. repeat split. Qed.

Example member_follow_count_null :
  Member.__init__ (JDict (member_core ++ [("followCount", JNull)])%list)
    = Err TypeError.
Proof. reflexivity. Qed.

(** ** Witnesses on the sample payloads *)

Lemma post_author_flags_witness :
  PostAuthor.profile_is_accessible
    (from_ok (PostAuthor.mk blank_member JNull JNull JNull false JNull None)
       (PostAuthor.__init__ (JDict author_payload))) = true.
Proof.
  apply (proj1 (post_author_flags (JDict author_payload) _ eq_refl)).
  reflexivity.
Defined.

Example post_author_flags_not_coerced :
  exists a,
    PostAuthor.__init__
      (JDict (("joined", JStr "true") :: ("profileSpaceStatus", JStr "accessible")
              :: author_payload)) = Ok a /\
    PostAuthor.has_joined a = JStr "true" /\
    PostAuthor.profile_is_accessible a = false.
Proof. eexists; repeat split. Qed.

Lemma member_extends_partial_member_witness :
  exists p : PartialMember.t,
    PartialMember.__init__ (JDict member_payload) = Ok p /\
    (forall a, In a ["id"; "name"; "image_url"; "profile_type"] ->
               @getattr raw_community (OMember sample_member) a =
               @getattr raw_community (OPartialMember p) a) /\
    (exists extra,
        @attrs raw_community (OMember sample_member) =
          (@attrs raw_community (OPartialMember p) ++ extra)%list /\
        forall a, In a (map fst extra) ->
                  ~ In a (map fst (@attrs raw_community (OPartialMember p)))).
Proof.
  apply (@member_extends_partial_member raw_community (JDict member_payload)
           sample_member).
  reflexivity.
Defined.

Lemma plain_fields_hold_raw_values_witness :
  exists v, lookup_path ["uploadInfo"; "playTime"] (JDict video_payload) = Some v /\
            @getattr raw_community
              (OVideo (from_ok (Video.mk JNull JNull JNull JNull JNull JNull)
                         (Video.__init__ (JDict video_payload))))
              "duration" = Some (VJson v).
Proof.
  apply (proj1 (@plain_fields_hold_raw_values raw_community) CVideo
           (JDict video_payload) _ ["uploadInfo"; "playTime"] "duration").
  - reflexivity.
  - simpl. right; left. reflexivity.
Defined.

(** C7 as stated fails on [profile_is_accessible]: the payload holds the
    string "ACCESSIBLE" under its required key, the attribute holds
    [True]. *)
Lemma derived_flag_counterexample :
  ~ (forall (d : dict) (o : @object raw_community) (v : json),
       construct CPostAuthor (JDict d) = Ok o ->
       lookup "profileSpaceStatus" d = Some v ->
       getattr o "profile_is_accessible" = Some (VJson v)).
Proof.
  intros H.
  specialize (H author_payload
                (OPostAuthor
                   (from_ok (PostAuthor.mk blank_member JNull JNull JNull false
                               JNull None)
                      (PostAuthor.__init__ (JDict author_payload))))
                (JStr "ACCESSIBLE") eq_refl eq_refl).
  vm_compute in H. discriminate H.
Qed.

Example embedded_objects_are_built :
  exists a, @getattr raw_community (OPost sample_post) "author" = Some (VAuthor a) /\
            PartialMember.name (PostAuthor.base a) = JStr "Ann".
Proof. eexists; split; reflexivity. Qed.

(** * Further properties *)

(** ** Identity, continued *)

Lemma py_eq_id_refl (x : json) : documented_id x = true -> py_eq x x = true.
Proof.
  destruct x; simpl; intros H; try discriminate H.
  - apply Z.eqb_refl.
  - apply String.eqb_refl.
Qed.

Lemma py_eq_id_sym (x y : json) :
  documented_id x = true -> py_eq x y = py_eq y x.
Proof.
  destruct x; simpl; intros H; try discriminate H;
    destruct y; simpl; try reflexivity.
  - apply Z.eqb_sym.
  - apply Z.eqb_sym.
  - apply String.eqb_sym.
Qed.

Lemma py_eq_id_trans (x y z : json) :
  documented_id y = true ->
  py_eq x y = true -> py_eq y z = true -> py_eq x z = true.
Proof.
  destruct y; simpl; intros Hs; try discriminate Hs;
    destruct x; simpl; intros Hxy; try discriminate Hxy;
    destruct z; simpl; intros Hyz; try discriminate Hyz;
    repeat match goal with
           | H : Z.eqb _ _ = true |- _ => apply Z.eqb_eq in H
           | H : String.eqb _ _ = true |- _ => apply String.eqb_eq in H
           end;
    subst;
    first [ apply Z.eqb_refl
          | apply String.eqb_refl
          | apply Z.eqb_eq; congruence
          | destruct b, b0; simpl in *; congruence ].
Qed.

Section IdentityLaws.
Context {CM : CommunityModel}.

Lemma class_eqb_sym (c d : class) : class_eqb c d = class_eqb d c.
Proof. destruct c, d; reflexivity. Qed.

(** Which call [==] makes first does not show in its outcome. *)
Lemma eq_op_cases (a b : object) :
  eq_op a b =
  if class_eqb (class_of a) (class_of b)
  then Ok (py_eq (id_of a) (id_of b))
  else Err NotImplementedError.
Proof.
  unfold eq_op. rewrite !eq_method_body.
  destruct (class_eqb (class_of a) (class_of b)) eqn:E; simpl.
  - apply class_eqb_eq in E. unfold isinstance. rewrite <- E.
    now rewrite issubclass_refl.
  - pose proof (first_call_rejects a b E) as Hrej.
    destruct (issubclass (class_of b) (class_of a)); now rewrite Hrej.
Qed.

(** X1.  On entities whose ids are of a documented type, a string or
    an integer, [==] behaves as an equivalence: [a == a] is true;
    [a == b] and [b == a] have the same outcome, the same boolean or the
    same exception, whatever the id of [b]; and [a == b] with [b == c]
    gives [a == c], whatever the ids of [a] and [c].  (An id of
    another type is not covered: a float [NaN], for one, is not equal
    to itself.) *)
Theorem eq_op_equivalence (a b c : object) :
  (documented_id (id_of a) = true -> eq_op a a = Ok true) /\
  (documented_id (id_of a) = true -> eq_op a b = eq_op b a) /\
  (documented_id (id_of b) = true ->
   eq_op a b = Ok true -> eq_op b c = Ok true -> eq_op a c = Ok true).
Proof.
  rewrite !eq_op_cases. split; [| split].
  - intros Hs.
    assert (E : class_eqb (class_of a) (class_of a) = true)
      by now apply class_eqb_eq.
    rewrite E. now rewrite py_eq_id_refl.
  - intros Hs. rewrite (class_eqb_sym (class_of b)).
    destruct (class_eqb (class_of a) (class_of b)); [| reflexivity].
    now rewrite (py_eq_id_sym _ _ Hs).
  - intros Hs Hab Hbc.
    destruct (class_eqb (class_of a) (class_of b)) eqn:Eab; [| discriminate].
    destruct (class_eqb (class_of b) (class_of c)) eqn:Ebc; [| discriminate].
    apply class_eqb_eq in Eab, Ebc.
    assert (E : class_eqb (class_of a) (class_of c) = true)
      by (apply class_eqb_eq; congruence).
    rewrite E. f_equal.
    injection Hab as Hab. injection Hbc as Hbc.
    now apply py_eq_id_trans with (y := id_of b).
Qed.

(** X2.  [a != b] raises [NotImplementedError] when the two classes
    differ, and otherwise is the negation of the comparison of the ids:
    in every case the outcome of [a == b], negated when it is a
    boolean. *)
Theorem ne_op_negates_eq_op (a b : object) :
  ne_op a b = (r <- eq_op a b ;; Ok (negb r)) /\
  (class_of a = class_of b ->
   ne_op a b = Ok (negb (py_eq (id_of a) (id_of b)))) /\
  (class_of a <> class_of b -> ne_op a b = Err NotImplementedError).
Proof.
  assert (Hne : ne_op a b = (r <- eq_op a b ;; Ok (negb r))).
  { unfold ne_op, eq_op, object__ne__.
    destruct (negb (class_eqb (class_of a) (class_of b))
              && issubclass (class_of b) (class_of a)); reflexivity. }
  split; [exact Hne |]. rewrite Hne, eq_op_cases. split.
  - intros Hc. apply class_eqb_eq in Hc. now rewrite Hc.
  - intros Hc.
    destruct (class_eqb (class_of a) (class_of b)) eqn:E; [| reflexivity].
    apply class_eqb_eq in E. contradiction.
Qed.

Section HashAcrossClasses.
Variable hash_str : string -> Z.
Variable hash_none : Z.

(** X3.  The hash does not depend on the class: two entities of any two
    classes whose ids compare equal have the same hash (while [==]
    between them raises when the classes differ). *)
Theorem hash_ignores_class (a b : object) :
  py_eq (id_of a) (id_of b) = true ->
  hash_op hash_str hash_none a = hash_op hash_str hash_none b /\
  (class_of a <> class_of b -> eq_op a b = Err NotImplementedError).
Proof.
  intros H. split.
  - unfold hash_op. rewrite !hash_method_body. now apply py_eq_same_hash.
  - intros Hc. rewrite eq_op_cases.
    destruct (class_eqb (class_of a) (class_of b)) eqn:E; [| reflexivity].
    apply class_eqb_eq in E. contradiction.
Qed.
End HashAcrossClasses.

Section Repr.
Variable format : json -> string.

(** X4.  The [repr] of an instance tells its class: two instances of
    different classes never have the same [repr], whatever their
    attributes hold and however values are formatted; nor is the [repr]
    of an artist profile ever that of an entity. *)
Theorem repr_tells_class (a b : object) (s : string) :
  repr_op format a = Some s ->
  (repr_op format b = Some s -> class_of a = class_of b) /\
  (forall p : ArtistProfile.t, ArtistProfile__repr__ format p <> s).
Proof.
  intros Ha. split.
  - revert Ha.
    destruct a, b; simpl; intros Ha Hb; try reflexivity; try discriminate;
      injection Ha as Ha; injection Hb as Hb; subst s;
      unfold Photo__repr__, Video__repr__, Snippet__repr__,
        PartialMember__repr__, Artist__repr__, PostAuthor__repr__,
        Member__repr__, Post__repr__ in Hb;
      simpl in Hb; discriminate Hb.
  - intros p Hp. revert Ha.
    destruct a; simpl; intros Ha; try discriminate;
      injection Ha as Ha; rewrite <- Ha in Hp;
      unfold ArtistProfile__repr__, Photo__repr__, Video__repr__,
        Snippet__repr__, PartialMember__repr__, Artist__repr__,
        PostAuthor__repr__, Member__repr__, Post__repr__ in Hp;
      simpl in Hp; discriminate Hp.
Qed.
End Repr.
End IdentityLaws.

Lemma eq_op_equivalence_witness :
  @eq_op raw_community (OPhoto sample_photo) (OPhoto sample_photo) = Ok true /\
  @eq_op raw_community (OPhoto sample_photo) (OPhoto sample_photo_moved) =
  @eq_op raw_community (OPhoto sample_photo_moved) (OPhoto sample_photo).
Proof.
  pose proof (@eq_op_equivalence raw_community (OPhoto sample_photo)
                (OPhoto sample_photo_moved) (OPhoto sample_photo))
    as [Hrefl [Hsym _]].
  split; [apply Hrefl | apply Hsym]; reflexivity.
Defined.

Lemma ne_op_negates_eq_op_witness :
  @ne_op raw_community (OPhoto sample_photo) (OPhoto sample_photo_moved) = Ok false /\
  @ne_op raw_community (OPartialMember sample_partial_member) (OMember sample_member)
    = Err NotImplementedError.
Proof.
  split.
  - apply (proj1 (proj2 (@ne_op_negates_eq_op raw_community
                           (OPhoto sample_photo) (OPhoto sample_photo_moved)))).
    reflexivity.
  - apply (proj2 (proj2 (@ne_op_negates_eq_op raw_community
                           (OPartialMember sample_partial_member)
                           (OMember sample_member)))).
    simpl. discriminate.
Defined.

Lemma hash_ignores_class_witness :
  let h := fun s => Z.of_nat (String.length s) in
  @hash_op raw_community h 0 (OPartialMember sample_partial_member) =
  @hash_op raw_community h 0 (OMember sample_member) /\
  (CPartialMember <> CMember ->
   @eq_op raw_community (OPartialMember sample_partial_member) (OMember sample_member)
     = Err NotImplementedError).
Proof.
  intros h.
  apply (@hash_ignores_class raw_community h 0
           (OPartialMember sample_partial_member) (OMember sample_member)).
  reflexivity.
Defined.

Lemma repr_tells_class_witness :
  (@repr_op raw_community (fun _ => "v") (OPhoto sample_photo_moved)
     = Some "Photo photo_id=v, url=v" ->
   @class_of raw_community (OPhoto sample_photo) =
   @class_of raw_community (OPhoto sample_photo_moved)) /\
  (forall p : ArtistProfile.t,
      ArtistProfile__repr__ (fun _ => "v") p <> "Photo photo_id=v, url=v").
Proof.
  apply (@repr_tells_class raw_community (fun _ => "v") (OPhoto sample_photo)
           (OPhoto sample_photo_moved) "Photo photo_id=v, url=v").
  reflexivity.
Defined.

Example repr_samples :
  let fmt := fun v => match v with JStr s => s | _ => "?" end in
  @repr_op raw_community fmt (OMember sample_member) = Some "Member member_id=m1, name=Ann" /\
  @repr_op raw_community fmt (OPartialMember sample_partial_member)
    = Some "Partial Member member_id=m1, name=Ann" /\
  @repr_op raw_community fmt (OPost sample_post) = Some "Post post_id=1-100, body=hi" /\
  Snippet__repr__ fmt (from_ok (Snippet.mk JNull JNull JNull JNull JNull JNull JNull JNull JNull)
                         (Snippet.__init__ (JDict snippet_payload)))
    = "Snippet snippet_id=s1 title=A page".
Proof. repeat split. Qed.

(** ** Construction, continued *)

Lemma bind_ok_inv {A B} (r : result A) (k : A -> result B) (b : B) :
  bind r k = Ok b -> exists a, r = Ok a /\ k a = Ok b.
Proof. destruct r as [a |]; simpl; [eauto | discriminate]. Qed.

Lemma getitem_error (x : json) (k : string) (e : exn) :
  getitem x k = Err e -> e = TypeError \/ e = KeyError k.
Proof.
  unfold getitem. destruct x; try (intros H; injection H as <-; now left).
  destruct (lookup k kvs); [discriminate |].
  intros H; injection H as <-. now right.
Qed.

Lemma getitem_error_kind (x : json) (k : string) (e : exn) :
  getitem x k = Err e -> key_or_type_error e = true.
Proof. intros H. apply getitem_error in H as [-> | ->]; reflexivity. Qed.

Lemma contains_dict_never_raises (d : dict) (k : string) (e : exn) :
  contains (JDict d) k = Err e -> False.
Proof. unfold contains. discriminate. Qed.

Lemma get_dict_value (d : dict) (k : string) (v : json) :
  get (JDict d) k = Ok v ->
  v = match lookup k d with Some w => w | None => JNull end.
Proof. unfold get. destruct (lookup k d); intros H; now injection H as <-. Qed.

Lemma lookup_path1_getitem (x : json) (k : string) (v : json) :
  lookup_path [k] x = Some v -> getitem x k = Ok v.
Proof.
  unfold getitem. destruct x; simpl; try discriminate.
  destruct (lookup k kvs); [| discriminate]. intros H; now injection H as <-.
Qed.

Lemma lookup_path2_getitem (x : json) (k1 k2 : string) (v : json) :
  lookup_path [k1; k2] x = Some v ->
  (u <- getitem x k1 ;; getitem u k2) = Ok v.
Proof.
  unfold getitem. destruct x; simpl; try discriminate.
  destruct (lookup k1 kvs) as [u |]; [| discriminate]. simpl.
  destruct u; try discriminate.
  destruct (lookup k2 kvs0); [| discriminate]. intros H; now injection H as <-.
Qed.

(** Following a failed run up to the read that raised. *)
Ltac err_step H :=
  lazymatch type of H with
  | Err _ = Err _ => fail
  | Ok _ = Err _ => fail
  | ?lhs = Err _ =>
      let r := head_read lhs in
      first [ is_var r; destruct r | destruct r eqn:? ]
  end.

Ltac err_all H :=
  repeat (err_step H; cbn in H; try discriminate H).

Ltac blame H :=
  injection H as <-;
  first
    [ eapply getitem_error_kind; eassumption
    | exfalso; eapply get_dict_never_raises; eassumption
    | exfalso; eapply contains_dict_never_raises; eassumption
    | eassumption ].

Lemma ArtistProfile_init_errors (x : json) (e : exn) :
  ArtistProfile.__init__ x = Err e -> key_or_type_error e = true.
Proof.
  unfold ArtistProfile.__init__. intros H. err_all H; blame H.
Qed.

Lemma PartialMember_init_non_mapping (x : json) :
  is_mapping x = false -> PartialMember.__init__ x = Err TypeError.
Proof. destruct x; try discriminate; reflexivity. Qed.

Lemma PostAuthor_init_errors (x : json) (e : exn) :
  PostAuthor.__init__ x = Err e -> key_or_type_error e = true.
Proof.
  destruct x;
    try (intros H; vm_compute in H; injection H as <-; reflexivity).
  unfold PostAuthor.__init__, PartialMember.__init__. intros H.
  err_all H; try blame H.
  all: injection H as <-; eapply ArtistProfile_init_errors; eassumption.
Qed.

Section ConstructionShapes.
Context {CM : CommunityModel}.

Lemma construct_non_mapping (c : class) (d : json) :
  is_mapping d = false -> construct c d = Err TypeError.
Proof. destruct d; try discriminate; intros _; destruct c; reflexivity. Qed.

(** X5.  A payload that is not a mapping ([null], a string, a number, a
    boolean, a list) makes every constructor raise [TypeError], the
    profile's constructor included. *)
Theorem non_mapping_payload_raises_type_error (c : class) (d : json) :
  is_mapping d = false ->
  construct c d = Err TypeError /\ ArtistProfile.__init__ d = Err TypeError.
Proof.
  destruct d; try discriminate; intros _; split; try reflexivity;
    destruct c; reflexivity.
Qed.

(** X6.  A constructor that fails raises [KeyError] or [TypeError] and
    nothing else; the one exception is a post, which also passes on
    whatever the community's constructor raises on the "community"
    sub-mapping. *)
Theorem construction_errors (c : class) (d : json) (e : exn) :
  construct c d = Err e ->
  key_or_type_error e = true \/
  ((c = CPostLike \/ c = CPost) /\
   exists v, getitem d "community" = Ok v /\ PartialCommunity_init v = Err e).
Proof.
  intros H.
  destruct (is_mapping d) eqn:Hm.
  2:{ rewrite (construct_non_mapping c d Hm) in H.
      injection H as <-. now left. }
  destruct d; try discriminate Hm. clear Hm.
  destruct c; unfold_inits; err_all H;
    first
      [ left; blame H
      | left; injection H as <-; eapply ArtistProfile_init_errors; eassumption
      | left; injection H as <-; eapply PostAuthor_init_errors; eassumption
      | right; injection H as <-;
        split; [auto |]; eexists; split; [reflexivity | eassumption] ].
Qed.

(** X7.  Every entity retains, as [data], the very payload it was built
    from. *)
Theorem construct_retains_payload (c : class) (d : json) (o : object) :
  construct c d = Ok o -> getattr o "data" = Some (VJson d).
Proof.
  intros H.
  destruct c; simpl in H; run_binds H; inversion H; subst; clear H;
    open_inits; reflexivity.
Qed.

(** X8.  An optional attribute read with [data.get] holds the value of
    its key as it is, a JSON [null] included, and [None] when the key is
    not there. *)
Theorem optional_plain_value (c : class) (d : dict) (o : object)
    (k a : string) :
  construct c (JDict d) = Ok o ->
  In (k, a) (optional_plain c) ->
  getattr o a =
  Some (VJson (match lookup k d with Some v => v | None => JNull end)).
Proof.
  intros H HIn.
  destruct c; simpl in HIn;
    repeat (destruct HIn as [HIn | HIn];
            [injection HIn as <- <- |]);
    try contradiction;
    unfold_inits; read_all H; injection H as <-;
    repeat match goal with
           | E : get (JDict _) _ = Ok _ |- _ => apply get_dict_value in E; subst
           end;
    reflexivity.
Qed.

(** X9.  The embedded objects are what their own constructors return on
    the sub-mappings: an artist's profile is [ArtistProfile] of
    "artistOfficialProfile", a post's author is [PostAuthor] of "author"
    and its community is the community's constructor of "community". *)
Theorem embedded_objects_built_from_sub_mappings :
  (forall (d : json) (a : Artist.t),
      Artist.__init__ d = Ok a ->
      exists v, getitem d "artistOfficialProfile" = Ok v /\
                ArtistProfile.__init__ v = Ok (Artist.artist_profile a)) /\
  (forall (d : json) (o : PostLike.t),
      PostLike.__init__ d = Ok o ->
      (exists v, getitem d "author" = Ok v /\
                 PostAuthor.__init__ v = Ok (PostLike.author o)) /\
      (exists v, getitem d "community" = Ok v /\
                 PartialCommunity_init v = Ok (PostLike.community o))).
Proof.
  split.
  - intros d a H. unfold Artist.__init__ in H. run_binds H.
    injection H as <-. simpl.
    match goal with
    | E : bind (getitem d "artistOfficialProfile") _ = Ok _ |- _ =>
        apply bind_ok_inv in E as [v [Hv Hp]]
    end.
    now exists v.
  - intros d o H. unfold PostLike.__init__ in H. run_binds H.
    injection H as <-. simpl. split.
    + match goal with
      | E : bind (getitem d "author") _ = Ok _ |- _ =>
          apply bind_ok_inv in E as [v [Hv Hp]]
      end.
      now exists v.
    + match goal with
      | E : bind (getitem d "community") _ = Ok _ |- _ =>
          apply bind_ok_inv in E as [v [Hv Hp]]
      end.
      now exists v.
Qed.

(** X10.  [ArtistProfile] builds exactly from the payloads that are
    mappings with "officialName", "officialImageUrl" and a "birthday"
    mapping with "date", and the profile holds those three values as
    they are. *)
Theorem artist_profile_characterised (v : json) (a : ArtistProfile.t) :
  ArtistProfile.__init__ v = Ok a <->
  lookup_path ["officialName"] v = Some (ArtistProfile.official_name a) /\
  lookup_path ["officialImageUrl"] v = Some (ArtistProfile.official_image_url a) /\
  lookup_path ["birthday"; "date"] v = Some (ArtistProfile.birthday a).
Proof.
  unfold ArtistProfile.__init__. split.
  - intros H. run_binds H. injection H as <-. simpl.
    repeat split;
      first [ apply getitem_path1; assumption
            | apply getitem_path2; assumption ].
  - intros [Hn [Hi Hb]].
    apply lookup_path1_getitem in Hn, Hi.
    apply lookup_path2_getitem in Hb.
    rewrite Hn. simpl. rewrite Hi. simpl. rewrite Hb. simpl.
    now destruct a.
Qed.

End ConstructionShapes.

(** ** Construction: which payloads build, and on what they depend *)

Lemma lookup_getitem (d : dict) (k : string) (v : json) :
  lookup k d = Some v -> getitem (JDict d) k = Ok v.
Proof. intros H. unfold getitem. now rewrite H. Qed.

Lemma lookup_contains (d : dict) (k : string) (v : json) :
  lookup k d = Some v -> contains (JDict d) k = Ok true.
Proof. intros H. unfold contains. now rewrite H. Qed.

Lemma lookup_get (d : dict) (k : string) (v : json) :
  lookup k d = Some v -> get (JDict d) k = Ok v.
Proof. intros H. unfold get. now rewrite H. Qed.

Lemma lookup_permutation (k : string) (d d' : dict) :
  Permutation d d' -> NoDup (map fst d) -> lookup k d = lookup k d'.
Proof.
  induction 1 as [| [k1 v1] l l' Hp IH | [k1 v1] [k2 v2] l | l l' l'' H1 IH1 H2 IH2];
    intros Hnd; simpl in *.
  - reflexivity.
  - inversion Hnd; subst. now rewrite IH.
  - inversion Hnd as [| ? ? Hnin _]; subst.
    destruct (String.eqb k1 k) eqn:E1, (String.eqb k2 k) eqn:E2; auto.
    apply String.eqb_eq in E1, E2. subst. exfalso. apply Hnin. now left.
  - rewrite IH1 by assumption. apply IH2.
    eapply Permutation_NoDup; [| eassumption].
    now apply Permutation_map.
Qed.

(** The read a run is waiting on. *)
Ltac head_of t :=
  lazymatch t with
  | is_ok ?r => head_of r
  | bind ?r _ => head_of r
  | negb ?b => head_of b
  | match ?x with _ => _ end => head_of x
  | _ => t
  end.

Ltac walk_lhs :=
  repeat (lazymatch goal with
          | |- true = _ => fail
          | |- false = _ => fail
          | |- ?lhs = _ =>
              let r := head_of lhs in
              first [ is_var r; destruct r | destruct r eqn:? ]
          end; cbn).

Ltac finish_rhs :=
  repeat (match goal with
          | |- context [match ?x with _ => _ end] => destruct x eqn:?
          | |- context [is_ok ?x] => destruct x eqn:?
          end; cbn);
  first [ reflexivity | congruence ].

Ltac walk_both :=
  repeat (lazymatch goal with
          | |- same_outcome (Ok _) _ => fail
          | |- same_outcome (Err _) _ => fail
          | |- same_outcome ?l _ =>
              let r := head_of l in
              first [ is_var r; destruct r | destruct r eqn:? ]
          end; cbn -[same_outcome]).

Section Acceptance.
Context {CM : CommunityModel}.

(** X12.  A constructor builds from a mapping exactly when every required
    key of its class is there and the sub-objects it reads have the
    shape it reads them with; what the values are is never looked at. *)
Theorem construct_accepts (c : class) (d : dict) :
  is_ok (construct c (JDict d)) =
  match first_missing (required_keys c) d with
  | None => sub_objects_ok c d
  | Some _ => false
  end.
Proof.
  unfold first_missing.
  destruct c; unfold_inits; unfold sub_objects_ok, profile_key_ok, has_keys;
    unfold getitem, get, contains; cbn;
    walk_lhs; finish_rhs.
Qed.

Lemma construct_frame (c : class) (d d' : dict) :
  (forall k, In k (read_keys c) -> lookup k d = lookup k d') ->
  same_outcome (construct c (JDict d)) (construct c (JDict d')).
Proof.
  intros Hagree.
  destruct c; unfold read_keys in Hagree; cbn in Hagree;
    unfold_inits; unfold getitem, get, contains;
    repeat match goal with
           | |- context [lookup ?k d'] =>
               let E := fresh "E" in
               let x := fresh "x" in
               assert (E : lookup k d = lookup k d')
                 by (apply Hagree; repeat first [left; reflexivity | right]);
               set (x := lookup k d') in *; clearbody x; subst x
           end;
    clear Hagree; cbn -[same_outcome]; walk_both;
    cbv beta iota delta [same_outcome];
    first
      [ reflexivity
      | split; [reflexivity |];
        intros nm Hnd; unfold getattr;
        apply (assoc_same_except "data" nm _ _ Hnd Hnd); simpl; same_tables ].
Qed.



(** X15.  The order of the keys of the payload does not matter to a
    constructor (it does to the accessors of a post, which follow the
    order of a bucket). *)
Theorem key_order_is_irrelevant (c : class) (d d' : dict) :
  NoDup (map fst d) ->
  Permutation d d' ->
  same_outcome (construct c (JDict d)) (construct c (JDict d')).
Proof.
  intros Hnd Hp. apply construct_frame. intros k _.
  now apply lookup_permutation.
Qed.

(** X16.  A sub-object that is there is read through.  A member payload
    that has "followCount" builds only with [follow_count] the
    "followerCount" of that value; a snippet payload with a truthy
    "image" builds only with [thumbnail_url] the "url" of that value; a
    member or post-author payload that has "artistOfficialProfile"
    builds only with the profile built from that value. *)
Theorem present_sub_objects_are_read :
  (forall (d : dict) (m : Member.t) (v : json),
      Member.__init__ (JDict d) = Ok m ->
      lookup "followCount" d = Some v ->
      getitem v "followerCount" = Ok (Member.follow_count m)) /\
  (forall (d : dict) (s : Snippet.t) (v : json),
      Snippet.__init__ (JDict d) = Ok s ->
      lookup "image" d = Some v ->
      truthy v = true ->
      getitem v "url" = Ok (Snippet.thumbnail_url s)) /\
  (forall (d : dict) (m : Member.t) (v : json),
      Member.__init__ (JDict d) = Ok m ->
      lookup "artistOfficialProfile" d = Some v ->
      exists a, ArtistProfile.__init__ v = Ok a /\
                Member.artist_profile m = Some a) /\
  (forall (d : dict) (p : PostAuthor.t) (v : json),
      PostAuthor.__init__ (JDict d) = Ok p ->
      lookup "artistOfficialProfile" d = Some v ->
      exists a, ArtistProfile.__init__ v = Ok a /\
                PostAuthor.artist_profile p = Some a).
Proof.
  split; [| split; [| split]].
  - intros d m v H Hv. unfold Member.__init__ in H.
    rewrite (lookup_contains _ _ _ Hv), (lookup_getitem _ _ _ Hv) in H.
    cbn in H. run_binds H. injection H as <-. reflexivity.
  - intros d s v H Hv Ht. unfold Snippet.__init__ in H.
    rewrite (lookup_get _ _ _ Hv), (lookup_getitem _ _ _ Hv) in H.
    cbn in H. rewrite Ht in H. cbn in H.
    run_binds H. injection H as <-. reflexivity.
  - intros d m v H Hv. unfold Member.__init__ in H.
    rewrite (lookup_contains _ _ _ Hv), (lookup_getitem _ _ _ Hv) in H.
    cbn in H. run_binds H. injection H as <-. simpl.
    match goal with
    | E : bind (ArtistProfile.__init__ v) _ = Ok _ |- _ =>
        apply bind_ok_inv in E as [prof [Hprof Hsome]];
        injection Hsome as <-; now exists prof
    end.
  - intros d p v H Hv. unfold PostAuthor.__init__ in H.
    rewrite (lookup_contains _ _ _ Hv), (lookup_getitem _ _ _ Hv) in H.
    cbn in H. run_binds H. injection H as <-. simpl.
    match goal with
    | E : bind (ArtistProfile.__init__ v) _ = Ok _ |- _ =>
        apply bind_ok_inv in E as [prof [Hprof Hsome]];
        injection Hsome as <-; now exists prof
    end.
Qed.
End Acceptance.

(** ** The accessors of a post, continued *)

Lemma Forall2_map_back {A B} (f : A -> result B) (g : B -> A)
    (vs : list A) (l : list B) :
  (forall v x, f v = Ok x -> g x = v) ->
  Forall2 (fun v x => f v = Ok x) vs l ->
  map g l = vs.
Proof.
  intros Hg HF. induction HF as [| v x vs l Hv _ IH]; simpl.
  - reflexivity.
  - now rewrite (Hg _ _ Hv), IH.
Qed.

Lemma mapM_first_error {A B} (f : A -> result B) (pre post : list A) (v : A)
    (e : exn) :
  forallb (fun u => is_ok (f u)) pre = true ->
  f v = Err e ->
  mapM f (pre ++ v :: post) = Err e.
Proof.
  intros Hpre Hv. induction pre as [| u pre IH]; simpl in *.
  - now rewrite Hv.
  - apply andb_prop in Hpre as [Hu Hpre].
    destruct (f u); [| discriminate]. simpl. now rewrite IH.
Qed.

Lemma Photo_init_data (v : json) (x : Photo.t) :
  Photo.__init__ v = Ok x -> Photo.data x = v.
Proof.
  unfold Photo.__init__. intros H. run_binds H. now injection H as <-.
Qed.

Lemma Video_init_data (v : json) (x : Video.t) :
  Video.__init__ v = Ok x -> Video.data x = v.
Proof.
  unfold Video.__init__. intros H. run_binds H. now injection H as <-.
Qed.

Lemma Snippet_init_data (v : json) (x : Snippet.t) :
  Snippet.__init__ v = Ok x -> Snippet.data x = v.
Proof.
  unfold Snippet.__init__. intros H. run_binds H. now injection H as <-.
Qed.

Lemma bucket_items_back {A} (ctor : json -> result A) (g : A -> json)
    (key : string) (d : json) (att b : dict) (l : list A) :
  (forall v x, ctor v = Ok x -> g x = v) ->
  getitem d "attachment" = Ok (JDict att) ->
  lookup key att = Some (JDict b) ->
  bucket_items ctor key d = Ok l ->
  map g l = dict_values b.
Proof.
  intros Hg Hatt Hb Hl.
  destruct (bucket_items_follows ctor key d) as [Hsection _].
  destruct (Hsection att Hatt) as [_ Hbucket].
  destruct (Hbucket b Hb) as [Hiff _].
  apply Hiff in Hl. eapply Forall2_map_back; eassumption.
Qed.

Lemma bucket_items_first_error {A} (ctor : json -> result A) (key : string)
    (d : json) (att b : dict) (pre post : list json) (v : json) (e : exn) :
  getitem d "attachment" = Ok (JDict att) ->
  lookup key att = Some (JDict b) ->
  dict_values b = (pre ++ v :: post)%list ->
  forallb (fun u => is_ok (ctor u)) pre = true ->
  ctor v = Err e ->
  bucket_items ctor key d = Err e.
Proof.
  intros Hatt Hb Hvs Hpre Hv.
  assert (Ht : truthy (JDict b) = true).
  { destruct b; [destruct pre; discriminate Hvs | reflexivity]. }
  unfold bucket_items.
  rewrite Hatt. cbn [bind].
  rewrite (lookup_get _ _ _ Hb). cbn [bind].
  rewrite Ht. cbn [negb].
  rewrite (lookup_getitem _ _ _ Hb). cbn [bind values].
  rewrite Hvs. now apply mapM_first_error.
Qed.

Lemma bucket_items_section_not_mapping {A} (ctor : json -> result A)
    (key : string) (d a : json) :
  getitem d "attachment" = Ok a ->
  is_mapping a = false ->
  bucket_items ctor key d = Err AttributeError.
Proof.
  intros Hatt Ha. unfold bucket_items. rewrite Hatt. cbn.
  destruct a; try discriminate Ha; reflexivity.
Qed.

Lemma bucket_items_bucket_not_mapping {A} (ctor : json -> result A)
    (key : string) (d : json) (att : dict) (v : json) :
  getitem d "attachment" = Ok (JDict att) ->
  lookup key att = Some v ->
  truthy v = true ->
  is_mapping v = false ->
  bucket_items ctor key d = Err AttributeError.
Proof.
  intros Hatt Hv Ht Hm. unfold bucket_items.
  rewrite Hatt. cbn. rewrite (lookup_get _ _ _ Hv), (lookup_getitem _ _ _ Hv).
  cbn. rewrite Ht. cbn.
  destruct v; try discriminate Hm; reflexivity.
Qed.

Section AccessorEdges.
Context {CM : CommunityModel}.

(** X17.  Each leaf an accessor returns retains its own entry of the
    bucket: reading [data] off the returned photos, videos or snippets
    gives back the values of the bucket, in order. *)
Theorem accessor_leaves_retain_entries (d : json) (p : Post.t) (att b : dict) :
  Post.__init__ d = Ok p ->
  getitem d "attachment" = Ok (JDict att) ->
  (forall l, lookup "photo" att = Some (JDict b) ->
             Post.photos p = Ok l -> map Photo.data l = dict_values b) /\
  (forall l, lookup "video" att = Some (JDict b) ->
             Post.videos p = Ok l -> map Video.data l = dict_values b) /\
  (forall l, lookup "snippet" att = Some (JDict b) ->
             Post.snippets p = Ok l -> map Snippet.data l = dict_values b).
Proof.
  intros Hp Hatt. apply Post_init_data in Hp.
  rewrite photos_unfold, videos_unfold, snippets_unfold, Hp.
  split; [| split]; intros l Hb Hl.
  - eapply bucket_items_back; eauto using Photo_init_data.
  - eapply bucket_items_back; eauto using Video_init_data.
  - eapply bucket_items_back; eauto using Snippet_init_data.
Qed.

(** X18.  One entry that does not build spoils the whole bucket: the
    accessor raises the error of the first such entry, in key-insertion
    order, and returns no list. *)
Theorem accessor_raises_first_failure (d : json) (p : Post.t) (att b : dict)
    (pre post : list json) (v : json) (e : exn) :
  Post.__init__ d = Ok p ->
  getitem d "attachment" = Ok (JDict att) ->
  dict_values b = (pre ++ v :: post)%list ->
  (lookup "photo" att = Some (JDict b) ->
   forallb (fun u => is_ok (Photo.__init__ u)) pre = true ->
   Photo.__init__ v = Err e -> Post.photos p = Err e) /\
  (lookup "video" att = Some (JDict b) ->
   forallb (fun u => is_ok (Video.__init__ u)) pre = true ->
   Video.__init__ v = Err e -> Post.videos p = Err e) /\
  (lookup "snippet" att = Some (JDict b) ->
   forallb (fun u => is_ok (Snippet.__init__ u)) pre = true ->
   Snippet.__init__ v = Err e -> Post.snippets p = Err e).
Proof.
  intros Hp Hatt Hvs. apply Post_init_data in Hp.
  rewrite photos_unfold, videos_unfold, snippets_unfold, Hp.
  split; [| split]; intros Hb Hpre Hv;
    eapply bucket_items_first_error; eassumption.
Qed.

(** X19.  A malformed attachment section raises [AttributeError]: when
    the section is there but is not a mapping, in all three accessors;
    when a bucket is truthy but is not a mapping (a JSON array of
    entries, say), in the accessor of that bucket. *)
Theorem accessor_malformed_shapes (d : json) (p : Post.t) :
  Post.__init__ d = Ok p ->
  (forall a, getitem d "attachment" = Ok a ->
             is_mapping a = false ->
             Post.photos p = Err AttributeError /\
             Post.videos p = Err AttributeError /\
             Post.snippets p = Err AttributeError) /\
  (forall att v, getitem d "attachment" = Ok (JDict att) ->
                 truthy v = true ->
                 is_mapping v = false ->
                 (lookup "photo" att = Some v ->
                  Post.photos p = Err AttributeError) /\
                 (lookup "video" att = Some v ->
                  Post.videos p = Err AttributeError) /\
                 (lookup "snippet" att = Some v ->
                  Post.snippets p = Err AttributeError)).
Proof.
  intros Hp. apply Post_init_data in Hp.
  rewrite photos_unfold, videos_unfold, snippets_unfold, Hp.
  split.
  - intros a Hatt Ha.
    split; [| split]; eapply bucket_items_section_not_mapping; eassumption.
  - intros att v Hatt Ht Hm.
    split; [| split]; intros Hv;
      eapply bucket_items_bucket_not_mapping; eassumption.
Qed.
End AccessorEdges.

(** ** Witnesses on the sample payloads, continued *)

Lemma non_mapping_payload_raises_type_error_witness :
  @construct raw_community CMember JNull = Err TypeError /\
  ArtistProfile.__init__ JNull = Err TypeError.
Proof.
  apply (@non_mapping_payload_raises_type_error raw_community CMember JNull).
  reflexivity.
Defined.

Lemma construction_errors_witness :
  key_or_type_error (KeyError "url") = true \/
  ((CPhoto = CPostLike \/ CPhoto = CPost) /\
   exists v, getitem (JDict [("photoId", JStr "p1")]) "community" = Ok v /\
             @PartialCommunity_init raw_community v = Err (KeyError "url")).
Proof.
  apply (@construction_errors raw_community CPhoto
           (JDict [("photoId", JStr "p1")]) (KeyError "url")).
  reflexivity.
Defined.

Lemma construct_retains_payload_witness :
  @getattr raw_community (OPost sample_post) "data" = Some (VJson (JDict post_payload)).
Proof.
  apply (@construct_retains_payload raw_community CPost (JDict post_payload)
           (OPost sample_post)).
  reflexivity.
Defined.

Lemma optional_plain_value_witness :
  @getattr raw_community (OMember sample_member) "image_url" =
  Some (VJson (match lookup "profileImageUrl" member_payload with
               | Some v => v
               | None => JNull
               end)).
Proof.
  apply (@optional_plain_value raw_community CMember member_payload
           (OMember sample_member) "profileImageUrl" "image_url").
  - reflexivity.
  - simpl. left. reflexivity.
Defined.

Lemma embedded_objects_built_from_sub_mappings_witness :
  exists v, getitem (JDict artist_payload) "artistOfficialProfile" = Ok v /\
            ArtistProfile.__init__ v = Ok (Artist.artist_profile sample_artist).
Proof.
  apply (proj1 (@embedded_objects_built_from_sub_mappings raw_community)
           (JDict artist_payload) sample_artist).
  reflexivity.
Defined.

Lemma artist_profile_characterised_witness :
  lookup_path ["officialName"] (JDict profile_payload)
    = Some (ArtistProfile.official_name sample_profile) /\
  lookup_path ["officialImageUrl"] (JDict profile_payload)
    = Some (ArtistProfile.official_image_url sample_profile) /\
  lookup_path ["birthday"; "date"] (JDict profile_payload)
    = Some (ArtistProfile.birthday sample_profile).
Proof.
  apply (proj1 (artist_profile_characterised (JDict profile_payload) sample_profile)).
  reflexivity.
Defined.


Lemma construct_accepts_witness :
  is_ok (@construct raw_community CVideo
           (JDict [("videoId", JStr "v1"); ("uploadInfo", JDict [("playTime", JInt 1)])]))
    = false.
Proof.
  rewrite (@construct_accepts raw_community CVideo
             [("videoId", JStr "v1"); ("uploadInfo", JDict [("playTime", JInt 1)])]).
  reflexivity.
Defined.



Lemma key_order_is_irrelevant_witness :
  same_outcome
    (@construct raw_community CPhoto (JDict photo_payload))
    (@construct raw_community CPhoto (JDict (rev photo_payload))).
Proof.
  apply (@key_order_is_irrelevant raw_community CPhoto photo_payload
           (rev photo_payload)).
  - simpl.
    repeat (constructor;
            [simpl; intros Hk;
             repeat (destruct Hk as [Hk | Hk]; [discriminate Hk |]);
             exact Hk |]).
    constructor.
  - apply Permutation_rev.
Defined.

Lemma present_sub_objects_are_read_witness :
  getitem (JDict [("followerCount", JInt 10)]) "followerCount"
    = Ok (Member.follow_count sample_member).
Proof.
  apply (proj1 present_sub_objects_are_read
           member_payload sample_member (JDict [("followerCount", JInt 10)]));
    reflexivity.
Defined.

Lemma accessor_leaves_retain_entries_witness :
  map Photo.data (from_ok [] (Post.photos sample_post)) =
  [JDict photo_payload; JDict photo_payload2].
Proof.
  apply (proj1 (@accessor_leaves_retain_entries raw_community
                  (JDict post_payload) sample_post
                  [ ("photo", JDict [ ("p1", JDict photo_payload);
                                      ("p2", JDict photo_payload2) ]);
                    ("video", JDict [ ("v1", JDict video_payload) ]);
                    ("snippet", JDict []) ]
                  [ ("p1", JDict photo_payload); ("p2", JDict photo_payload2) ]
                  eq_refl eq_refl)
           (from_ok [] (Post.photos sample_post)) eq_refl eq_refl).
Defined.

Lemma accessor_raises_first_failure_witness :
  Post.photos broken_post = Err (KeyError "url").
Proof.
  apply (proj1 (@accessor_raises_first_failure raw_community
                  (JDict broken_post_payload) broken_post
                  [ ("photo", JDict [ ("p1", JDict photo_payload);
                                      ("p2", JDict [ ("photoId", JStr "p2") ]);
                                      ("p3", JNull) ]) ]
                  [ ("p1", JDict photo_payload);
                    ("p2", JDict [ ("photoId", JStr "p2") ]);
                    ("p3", JNull) ]
                  [JDict photo_payload] [JNull]
                  (JDict [ ("photoId", JStr "p2") ]) (KeyError "url")
                  eq_refl eq_refl eq_refl));
    reflexivity.
Defined.

Lemma accessor_malformed_shapes_witness :
  Post.photos array_post = Err AttributeError.
Proof.
  apply (proj1 (proj2 (@accessor_malformed_shapes raw_community
                         (JDict array_post_payload) array_post eq_refl)
                  [ ("photo", JList [ JDict photo_payload ]) ]
                  (JList [ JDict photo_payload ])
                  eq_refl eq_refl eq_refl));
    reflexivity.
Defined.

Example construct_accepts_samples :
  is_ok (@construct raw_community CMember (JDict member_payload)) = true /\
  is_ok (@construct raw_community CMember
           (JDict (member_core ++ [("followCount", JInt 3)])%list)) = false /\
  is_ok (@construct raw_community CPhoto
           (JDict [ ("photoId", JNull); ("url", JInt 0); ("height", JStr "tall");
                    ("width", JList []) ])) = true.
Proof. repeat split. Qed.

Example set_of_mixed_classes_raises :
  let h := fun s => Z.of_nat (String.length s) in
  @hash_op raw_community h 0 (OPhoto sample_photo) =
  @hash_op raw_community h 0
    (OVideo (Video.mk JNull (JStr "p1") JNull JNull JNull JNull)) /\
  @eq_op raw_community (OPhoto sample_photo)
    (OVideo (Video.mk JNull (JStr "p1") JNull JNull JNull JNull))
    = Err NotImplementedError.
Proof. split; reflexivity. Qed.
